(** * Skyscrapers board validator: a shallow embedding of [skyscrapers.py]

    The Python module reads a bordered square grid of characters from a text
    file and decides whether it is a valid, finished skyscrapers board.

    Modelling choices.
    - A Python [str] is a [list ascii]; a character is a code point below 256,
      and the text of a file is what [open] decodes from it.
    - Python integers are [Z]; indexing follows Python (a negative index counts
      from the end, an index out of range raises [IndexError]).
    - A call either returns a value or raises: [result A].  Calls are
      sequenced with stdpp's monad notation.
    - [float('-inf')], the initial running maximum, is [NegInf].
    - The [while] loops of [check_visibility] recurse on their index, as the
      source does, by well-founded recursion. *)

From Stdlib Require Import ZArith Lia Ascii String List Bool Sorted.
From stdpp Require Import base decidable option list list_numbers gmap strings.
From Equations Require Import Equations.

Local Open Scope Z_scope.

(** ** Exceptions *)

Inductive exn := IndexError | ValueError | OSError.

Inductive result (A : Type) :=
| Ok (a : A)
| Raise (e : exn).
Arguments Ok {A} a.
Arguments Raise {A} e.

Global Instance result_ret : MRet result := fun A a => Ok a.
Global Instance result_bind : MBind result := fun A B f m =>
  match m with
  | Ok a => f a
  | Raise e => Raise e
  end.

Definition returns {A} (m : result A) : Prop := exists a, m = Ok a.

(** ** Python primitives *)

(** [a and b] on booleans: [b] is evaluated only when [a] is true. *)
Definition and_ (a b : result bool) : result bool :=
  a ≫= fun x : bool => if x then b else Ok x.

Abbreviation str := (list ascii).

Definition len {A} (l : list A) : Z := Z.of_nat (length l).

(** [l[i]] *)
Definition index {A} (l : list A) (i : Z) : result A :=
  let j := if i <? 0 then i + len l else i in
  if j <? 0 then Raise IndexError
  else match l !! Z.to_nat j with
       | Some a => Ok a
       | None => Raise IndexError
       end.

(** [l[start:stop]] *)
Definition clamp {A} (l : list A) (i : Z) : nat :=
  if i <? 0 then Z.to_nat (Z.max 0 (i + len l)) else Z.to_nat (Z.min i (len l)).

Definition slice {A} (l : list A) (start stop : Z) : list A :=
  let a := clamp l start in
  let b := clamp l stop in
  take (b - a)%nat (drop a l).

(** [range(start, stop)] *)
Definition range (start stop : Z) : list Z :=
  map (fun k => start + Z.of_nat k) (seq 0 (Z.to_nat (stop - start))).

(** [int(c)] for a one-character string. *)
Definition int (c : ascii) : result Z :=
  match c with
  | "0" => Ok 0
  | "1" => Ok 1
  | "2" => Ok 2
  | "3" => Ok 3
  | "4" => Ok 4
  | "5" => Ok 5
  | "6" => Ok 6
  | "7" => Ok 7
  | "8" => Ok 8
  | "9" => Ok 9
  | _ => Raise ValueError
  end%char.

(** ** check_visibility *)

(** The running maximum: [float('-inf')] or a height. *)
Inductive num := NegInf | Int (z : Z).

(** [h > curr_max] *)
Definition gt (h : Z) (curr_max : num) : bool :=
  match curr_max with
  | NegInf => true
  | Int m => m <? h
  end.

(** The loop [while idx < len(heights)] of the leftmost hint. *)
Equations? while_left (heights : list Z) (idx count : Z) (curr_max : num)
  : result Z by wf (Z.to_nat (len heights - idx)) lt :=
  while_left heights idx count curr_max with Z_lt_dec idx (len heights) := {
    | left _ =>
        h ← index heights idx;
        if gt h curr_max
        then while_left heights (idx + 1) (count + 1) (Int h)
        else while_left heights (idx + 1) count curr_max
    | right _ => Ok count }.
Proof. all: lia. Qed.

(** The loop [while idx >= 0] of the rightmost hint. *)
Equations? while_right (heights : list Z) (idx count : Z) (curr_max : num)
  : result Z by wf (Z.to_nat (idx + 1)) lt :=
  while_right heights idx count curr_max with Z_ge_dec idx 0 := {
    | left _ =>
        h ← index heights idx;
        if gt h curr_max
        then while_right heights (idx - 1) (count + 1) (Int h)
        else while_right heights (idx - 1) count curr_max
    | right _ => Ok count }.
Proof. all: lia. Qed.

(** The block under [if line[0] != '*']: [false] stands for the early
    [return False], [true] for falling through to the next block. *)
Definition check_left (line : str) (heights : list Z) : result bool :=
  c ← index line 0;
  if decide (c ≠ "*"%char) then
    count ← while_left heights 0 0 NegInf;
    hint ← index line 0 ≫= int;
    if decide (count ≠ hint) then Ok false else Ok true
  else Ok true.

(** The block under [if line[-1] != '*']. *)
Definition check_right (line : str) (heights : list Z) : result bool :=
  c ← index line (-1);
  if decide (c ≠ "*"%char) then
    count ← while_right heights (len heights - 1) 0 NegInf;
    hint ← index line (-1) ≫= int;
    if decide (count ≠ hint) then Ok false else Ok true
  else Ok true.

Definition check_visibility (line : str) : result bool :=
  heights ← mapM int (slice line 1 (-1));
  l ← check_left line heights;
  if negb l then Ok false
  else
    r ← check_right line heights;
    if negb r then Ok false else Ok true.

(** ** Loops over a board *)

(** [for i in idxs: if not body(i): return False] followed by
    [return True]. *)
Fixpoint for_all (body : Z → result bool) (idxs : list Z) : result bool :=
  match idxs with
  | [] => Ok true
  | i :: rest =>
      b ← body i;
      if negb b then Ok false else for_all body rest
  end.

(** [board[row_idx][col_idx]] *)
Definition cell_at (board : list str) (row_idx col_idx : Z) : result ascii :=
  index board row_idx ≫= fun row => index row col_idx.

(** ** check_not_finished_board *)

(** [for cell in row: if cell == '?': return False] *)
Fixpoint row_finished (row : str) : bool :=
  match row with
  | [] => true
  | cell :: rest => if decide (cell = "?"%char) then false else row_finished rest
  end.

Fixpoint check_not_finished_board (board : list str) : bool :=
  match board with
  | [] => true
  | row :: rest => if row_finished row then check_not_finished_board rest else false
  end.

(** ** check_uniqueness_in_rows, check_uniqueness_in_columns *)

(** The inner loop of both functions: the cells [cell i], for [i] in [idxs],
    are compared with the set [heights] of those seen so far.  [true] stands
    for the end of the loop, [false] for [return False]. *)
Fixpoint unique_cells (cell : Z → result ascii) (idxs : list Z)
    (heights : gset ascii) : result bool :=
  match idxs with
  | [] => Ok true
  | i :: rest =>
      c ← cell i;
      if decide (c = "*"%char) then unique_cells cell rest heights
      else if decide (c ∈ heights) then Ok false
      else unique_cells cell rest ({[c]} ∪ heights)
  end.

Definition check_uniqueness_in_rows (board : list str) : result bool :=
  for_all (fun row_idx =>
             row ← index board row_idx;
             unique_cells (cell_at board row_idx) (range 1 (len row - 1)) ∅)
          (range 1 (len board - 1)).

Definition check_uniqueness_in_columns (board : list str) : result bool :=
  row0 ← index board 0;
  for_all (fun col_idx =>
             unique_cells (fun row_idx => cell_at board row_idx col_idx)
                          (range 1 (len board - 1)) ∅)
          (range 1 (len row0 - 1)).

(** ** check_horizontal_visibility, check_vertical_visibility *)

Definition check_horizontal_visibility (board : list str) : result bool :=
  for_all (fun row_idx => index board row_idx ≫= check_visibility)
          (range 1 (len board - 1)).

(** The column [col_idx], top to bottom; [enumerate(board)] yields the row
    indexes [0 .. len(board) - 1]. *)
Definition column (board : list str) (col_idx : Z) : result str :=
  mapM (fun row_idx => cell_at board row_idx col_idx) (range 0 (len board)).

Definition check_vertical_visibility (board : list str) : result bool :=
  row0 ← index board 0;
  for_all (fun col_idx => column board col_idx ≫= check_visibility)
          (range 1 (len row0 - 1)).

(** ** read_input *)

(** [str.isspace] on one character. *)
Definition isspace (c : ascii) : bool :=
  let n := nat_of_ascii c in
  ((9 <=? n) && (n <=? 13) || (28 <=? n) && (n <=? 32)
   || (n =? 133) || (n =? 160))%nat.

Fixpoint lstrip (text : str) : str :=
  match text with
  | [] => []
  | c :: rest => if isspace c then lstrip rest else text
  end.

Definition rstrip (text : str) : str := rev (lstrip (rev text)).

(** [text.strip()] *)
Definition strip (text : str) : str := rstrip (lstrip text).

Definition LF : ascii := "010"%char.
Definition CR : ascii := "013"%char.

(** Text mode with universal newlines: a carriage return, alone or followed
    by a line feed, is read as one line feed. *)
Fixpoint universal_newlines (text : str) : str :=
  match text with
  | [] => []
  | c :: rest =>
      if decide (c = CR) then
        match rest with
        | c' :: rest' =>
            if decide (c' = LF) then LF :: universal_newlines rest'
            else LF :: universal_newlines rest
        | [] => [LF]
        end
      else c :: universal_newlines rest
  end.

(** The lines of a text, each with its line feed (the last one may have
    none). *)
Fixpoint split_lines (text : str) : list str :=
  match text with
  | [] => []
  | c :: rest =>
      if decide (c = LF) then [c] :: split_lines rest
      else match split_lines rest with
           | [] => [[c]]
           | line :: lines => (c :: line) :: lines
           end
  end.

(** [input_file.readlines()] on a file with the given text. *)
Definition readlines (file : str) : list str :=
  split_lines (universal_newlines file).

Section Files.

(** The file system: the contents of the file at a path, when it can be
    opened and read. *)
Variable fs : str → option str.

Definition read_input (path : str) : result (list str) :=
  match fs path with
  | None => Raise OSError
  | Some file => let contents := readlines file in Ok (map strip contents)
  end.

(** ** check_skyscrapers *)

Definition check_skyscrapers (input_path : str) : result bool :=
  board ← read_input input_path;
  let is_finished := check_not_finished_board board in
  is_unique ← and_ (check_uniqueness_in_rows board)
                   (check_uniqueness_in_columns board);
  if negb (is_finished && is_unique) then Ok false
  else
    is_horizontally_valid ← check_horizontal_visibility board;
    is_vertically_valid ← check_vertical_visibility board;
    Ok (is_horizontally_valid && is_vertically_valid).

End Files.

(** A string literal as a [str]. *)
Definition s (x : string) : str := list_ascii_of_string x.
Arguments s x%_string.

(** * Specification vocabulary *)

(** ** Digits, borders and visible buildings *)

Definition is_digit (c : ascii) : bool :=
  ((48 <=? nat_of_ascii c) && (nat_of_ascii c <=? 57))%nat.

(** The number of buildings of a line that are seen when looking along it:
    those that are higher than the running maximum [curr_max] of what stands
    before them. *)
Fixpoint visible_from (curr_max : num) (heights : list Z) : Z :=
  match heights with
  | [] => 0
  | h :: rest =>
      if gt h curr_max then 1 + visible_from (Int h) rest
      else visible_from curr_max rest
  end.

Definition visible_count (heights : list Z) : Z := visible_from NegInf heights.

(** The building at place [i] is visible from the start of the line: it is
    higher than every building before it. *)
Definition visible_at (heights : list Z) (i : nat) : bool :=
  match heights !! i with
  | Some h => forallb (fun x => x <? h) (take i heights)
  | None => false
  end.

(** The places of the visible buildings. *)
Definition visible_places (heights : list Z) : list nat :=
  filter (fun i => visible_at heights i = true) (seq 0 (length heights)).

(** What a border cell says: no hint, or the number of buildings to see. *)
Inductive border := Filler | Hint (h : Z).

Definition border_of (c : ascii) : option border :=
  if decide (c = "*"%char) then Some Filler
  else match int c with
       | Ok h => Some (Hint h)
       | Raise _ => None
       end.

(** A side accepts the heights, listed from that side inward, when it bears
    no hint or when its hint is the number of visible buildings. *)
Definition side_accepts (b : border) (heights : list Z) : bool :=
  match b with
  | Filler => true
  | Hint h => bool_decide (visible_count heights = h)
  end.

(** ** Boards *)

(** [l[1:-1]]: the rows between the two border rows of a board, the cells
    between the two border cells of a row. *)
Definition interior {A} (l : list A) : list A := slice l 1 (-1).

(** The interior rows of a board, each without its two border cells. *)
Definition interior_cells (board : list str) : list str :=
  map interior (interior board).

(** Some character accepted by [P] stands at two places of [cells]. *)
Definition repeats (P : ascii → Prop) (cells : str) : Prop :=
  exists (i j : nat) (c : ascii),
    (i < j)%nat /\ cells !! i = Some c /\ cells !! j = Some c /\ P c.

Definition not_filler (c : ascii) : Prop := c ≠ "*"%char.

(** The heights of buildings, ['1'] to ['9']. *)
Definition height_digit (c : ascii) : Prop :=
  (49 <= nat_of_ascii c <= 57)%nat.

(** No character other than the filler stands twice in [cells]. *)
Definition distinct (cells : str) : Prop :=
  NoDup (filter not_filler cells).

(** All rows are as long as the first one, and there is a first one. *)
Definition rectangular (board : list str) : Prop :=
  exists row0, head board = Some row0
               /\ Forall (fun row => length row = length row0) board.

(** As many columns as rows, and at least one row. *)
Definition square (board : list str) : Prop :=
  board ≠ [] /\ Forall (fun row => length row = length board) board.

(** The cells of column [j], top to bottom. *)
Definition column_cells (board : list str) (j : nat) : str :=
  omap (fun row => row !! j) board.

(** The board read column by column. *)
Definition transpose (board : list str) : list str :=
  match board with
  | [] => []
  | row0 :: _ => map (column_cells board) (seq 0 (length row0))
  end.

(** The first and the last element. *)
Definition ends {A} (l : list A) : list A := take 1 l ++ drop (length l - 1) l.

(** The cells of the border rows and the border cells of the interior
    rows. *)
Definition border_cells (board : list str) : list str :=
  ends board ++ map ends (interior board).

(** The cell in row [i] and column [j] of a board of [n] rows and columns
    lies on its border. *)
Definition on_border (n i j : nat) : Prop :=
  i = 0%nat \/ j = 0%nat \/ i = (n - 1)%nat \/ j = (n - 1)%nat.

(** A square board whose border cells are hint digits or fillers and whose
    interior cells are height digits or unknown markers. *)
Definition well_formed (board : list str) : Prop :=
  square board
  /\ forall (i j : nat) (row : str) (c : ascii),
       board !! i = Some row → row !! j = Some c →
       if decide (on_border (length board) i j)
       then c = "*"%char \/ height_digit c
       else c = "?"%char \/ height_digit c.

(** ** Lines of text *)

(** [line] is [raw] without the whitespace at its two ends. *)
Definition stripped_of (raw line : str) : Prop :=
  exists pre post,
    raw = pre ++ line ++ post
    /\ Forall (fun c => isspace c = true) pre
    /\ Forall (fun c => isspace c = true) post
    /\ (forall c, head line = Some c → isspace c = false)
    /\ (forall c, last line = Some c → isspace c = false).

(** ** Files and boards of the documentation *)

(** The text of a file that holds the given rows, one per line. *)
Definition lines_text (rows : list str) : str :=
  concat (map (fun row => row ++ [LF]) rows).

(** A file system in which every path holds the given rows. *)
Definition holding (rows : list str) : str → option str :=
  fun _ => Some (lines_text rows).

(** The board of [docs/check.txt], as the docstrings give it. *)
Definition check_txt : list str :=
  [s "***21**"; s "412453*"; s "423145*"; s "*543215"; s "*35214*";
   s "*41532*"; s "*2*1***"].

(** ** Lines checked in order *)

(** The lines are checked one after the other, up to the first one that is
    rejected or that raises. *)
Fixpoint lines_visible (lines : list str) : result bool :=
  match lines with
  | [] => Ok true
  | line :: rest =>
      b ← check_visibility line;
      if negb b then Ok false else lines_visible rest
  end.

(** ** Text files *)

(** A row that can be written on a line of its own: it holds no line feed
    and no carriage return, and no whitespace at its two ends. *)
Definition clean_row (row : str) : Prop :=
  (LF ∉ row) /\ (CR ∉ row)
  /\ (forall c, head row = Some c → isspace c = false)
  /\ (forall c, last row = Some c → isspace c = false).

(** The text of a file with the given rows, each followed by the line
    ending [eol]. *)
Definition text_of (eol : str) (rows : list str) : str :=
  concat (map (fun row => row ++ eol) rows).

(** ** The running maximum *)

(** The value of [curr_max] when a loop has gone through [heights]. *)
Fixpoint max_after (curr_max : num) (heights : list Z) : num :=
  match heights with
  | [] => curr_max
  | h :: rest => max_after (if gt h curr_max then Int h else curr_max) rest
  end.
(** * Properties *)

(** ** The result monad *)

Lemma bind_Ok {A B} (f : A → result B) (a : A) : Ok a ≫= f = f a.
Proof. reflexivity. Qed.

(** ** Indexing, slices and ranges *)

Lemma len_nonneg {A} (l : list A) : 0 <= len l.
Proof. unfold len. lia. Qed.

Lemma len_app {A} (l k : list A) : len (l ++ k) = len l + len k.
Proof. unfold len. rewrite length_app. lia. Qed.

Lemma len_cons {A} (a : A) (l : list A) : len (a :: l) = 1 + len l.
Proof. unfold len. simpl. lia. Qed.

Lemma index_lookup {A} (l : list A) (i : Z) (a : A) :
  0 <= i → l !! Z.to_nat i = Some a → index l i = Ok a.
Proof.
  intros Hi Hl. unfold index.
  destruct (Z.ltb_spec i 0); [lia|].
  destruct (Z.ltb_spec i 0); [lia|]. now rewrite Hl.
Qed.

Lemma index_in_range {A} (l : list A) (i : Z) :
  0 <= i < len l → exists a, l !! Z.to_nat i = Some a /\ index l i = Ok a.
Proof.
  intros Hi. destruct (lookup_lt_is_Some_2 l (Z.to_nat i)) as [a Ha].
  { unfold len in Hi. lia. }
  exists a. split; [done|]. apply index_lookup; [lia | done].
Qed.

Lemma index_out_of_range {A} (l : list A) (i : Z) :
  len l <= i → index l i = Raise IndexError.
Proof.
  intros Hi. pose proof (len_nonneg l). unfold index.
  destruct (Z.ltb_spec i 0); [lia|].
  destruct (Z.ltb_spec i 0); [lia|].
  rewrite lookup_ge_None_2; [done|]. unfold len in Hi. lia.
Qed.

Lemma index_first {A} (a : A) (l : list A) : index (a :: l) 0 = Ok a.
Proof. reflexivity. Qed.

Lemma index_last {A} (l : list A) (a : A) : index (l ++ [a]) (-1) = Ok a.
Proof.
  unfold index. change (-1 <? 0) with true. cbv iota zeta. rewrite len_app.
  pose proof (len_nonneg l). change (len [a]) with 1.
  destruct (Z.ltb_spec (-1 + (len l + 1)) 0); [lia|].
  replace (Z.to_nat (-1 + (len l + 1))) with (length l) by (unfold len; lia).
  now rewrite list_lookup_middle.
Qed.

Lemma index_empty {A} (i : Z) : index (@nil A) i = Raise IndexError.
Proof.
  unfold index. change (len (@nil A)) with 0.
  destruct (i <? 0); destruct (_ <? 0); try done.
Qed.

(** The slice [line[1:-1]] of a line with two border cells is what lies
    between them. *)
Lemma slice_between {A} (a b : A) (l : list A) :
  slice (a :: l ++ [b]) 1 (-1) = l.
Proof.
  unfold slice, clamp. change (1 <? 0) with false. change (-1 <? 0) with true.
  cbv iota zeta.
  rewrite len_cons, len_app. change (len [b]) with 1.
  pose proof (len_nonneg l).
  replace (Z.to_nat (Z.min 1 (1 + (len l + 1)))) with 1%nat by lia.
  replace (Z.to_nat (Z.max 0 (-1 + (1 + (len l + 1))))) with (S (length l))
    by (unfold len; lia).
  replace (S (length l) - 1)%nat with (length l) by lia.
  change (drop 1 (a :: l ++ [b])) with (l ++ [b]).
  now rewrite take_app_length.
Qed.

Lemma range_empty (start stop : Z) : stop <= start → range start stop = [].
Proof. intros H. unfold range. now replace (Z.to_nat (stop - start)) with 0%nat by lia. Qed.

Lemma range_cons (start stop : Z) :
  start < stop → range start stop = start :: range (start + 1) stop.
Proof.
  intros H. unfold range.
  replace (Z.to_nat (stop - start)) with (S (Z.to_nat (stop - (start + 1)))) by lia.
  simpl. f_equal; [lia|].
  rewrite <- seq_shift, map_map. apply map_ext. intros k. lia.
Qed.

Lemma elem_of_range (start stop i : Z) : i ∈ range start stop ↔ start <= i < stop.
Proof.
  unfold range. rewrite list_elem_of_fmap. split.
  - intros (k & -> & Hk). apply list_elem_of_In, in_seq in Hk. lia.
  - intros Hi. exists (Z.to_nat (i - start)). split; [lia|].
    apply list_elem_of_In, in_seq. lia.
Qed.

(** ** Digits *)

Lemma int_digit (c : ascii) :
  is_digit c = true → exists h, int c = Ok h /\ 0 <= h <= 9.
Proof.
  destruct c as [[] [] [] [] [] [] [] []]; vm_compute; try discriminate;
    intros _; eexists; (split; [reflexivity | split; discriminate]).
Qed.

Lemma int_not_digit (c : ascii) : is_digit c = false → int c = Raise ValueError.
Proof. destruct c as [[] [] [] [] [] [] [] []]; vm_compute; congruence. Qed.

Lemma mapM_int_digits (cells : str) :
  Forall (fun c => is_digit c = true) cells → exists hs, mapM int cells = Ok hs.
Proof.
  induction 1 as [|c cells Hc _ [hs IH]]; [by exists []|].
  destruct (int_digit c Hc) as (h & Hh & _).
  exists (h :: hs). cbn. rewrite Hh. cbn. now rewrite IH.
Qed.

Lemma mapM_int_not_digits (cells : str) :
  ¬ Forall (fun c => is_digit c = true) cells → mapM int cells = Raise ValueError.
Proof.
  induction cells as [|c cells IH]; intros H; [destruct H; constructor|].
  cbn. destruct (is_digit c) eqn:E.
  - destruct (int_digit c E) as (h & -> & _). cbn.
    rewrite IH; [done|]. intros HF. apply H. now constructor.
  - now rewrite (int_not_digit c E).
Qed.

(** ** Counting visible buildings *)

Lemma while_left_from (n : nat) (heights : list Z) : forall idx count curr_max,
  0 <= idx → Z.to_nat (len heights - idx) = n →
  while_left heights idx count curr_max
  = Ok (count + visible_from curr_max (drop (Z.to_nat idx) heights)).
Proof.
  induction n as [|n IH]; intros idx count curr_max Hidx Hn;
    rewrite while_left_equation_1;
    destruct (Z_lt_dec idx (len heights)) as [Hlt|Hge];
    rewrite ?while_left_clause_1_equation_1, ?while_left_clause_1_equation_2;
    try lia.
  - rewrite drop_ge by (unfold len in *; lia). cbn. f_equal. lia.
  - destruct (index_in_range heights idx) as (h & Hh & ->); [lia|].
    rewrite bind_Ok, (drop_S _ _ _ Hh). cbn [visible_from].
    replace (S (Z.to_nat idx)) with (Z.to_nat (idx + 1)) by lia.
    destruct (gt h curr_max); rewrite IH by lia; f_equal; lia.
Qed.

Lemma while_right_from (n : nat) (heights : list Z) : forall idx count curr_max,
  -1 <= idx < len heights → Z.to_nat (idx + 1) = n →
  while_right heights idx count curr_max
  = Ok (count + visible_from curr_max (rev (take (Z.to_nat (idx + 1)) heights))).
Proof.
  induction n as [|n IH]; intros idx count curr_max Hidx Hn;
    rewrite while_right_equation_1;
    destruct (Z_ge_dec idx 0) as [Hge|Hlt];
    rewrite ?while_right_clause_1_equation_1, ?while_right_clause_1_equation_2;
    try lia.
  - rewrite Hn. change (take 0 heights) with (@nil Z).
    cbn [rev visible_from]. now rewrite Z.add_0_r.
  - destruct (index_in_range heights idx) as (h & Hh & ->); [lia|].
    rewrite bind_Ok.
    replace (Z.to_nat (idx + 1)) with (S (Z.to_nat idx)) by lia.
    rewrite (take_S_r _ _ _ Hh), rev_app_distr. cbn [rev app visible_from].
    replace (Z.to_nat idx) with (Z.to_nat (idx - 1 + 1)) by lia.
    destruct (gt h curr_max); rewrite IH by lia; f_equal; lia.
Qed.

(** The two loops count the buildings visible from their side. *)
Lemma while_left_count (heights : list Z) :
  while_left heights 0 0 NegInf = Ok (visible_count heights).
Proof. now rewrite (while_left_from _ heights 0 0 NegInf ltac:(lia) eq_refl). Qed.

Lemma while_right_count (heights : list Z) :
  while_right heights (len heights - 1) 0 NegInf = Ok (visible_count (rev heights)).
Proof.
  pose proof (len_nonneg heights).
  rewrite (while_right_from _ heights (len heights - 1) 0 NegInf ltac:(lia) eq_refl).
  replace (Z.to_nat (len heights - 1 + 1)) with (length heights)
    by (unfold len; lia).
  now rewrite firstn_all.
Qed.

(** ** The two sides of a line *)

Lemma border_of_inv (c : ascii) (b : border) :
  border_of c = Some b →
  (c = "*"%char /\ b = Filler) \/ (c ≠ "*"%char /\ exists h, int c = Ok h /\ b = Hint h).
Proof.
  unfold border_of. case_decide as Hc.
  - intros [= <-]. now left.
  - destruct (int c) as [h|e] eqn:E; [|discriminate].
    intros [= <-]. right. eauto.
Qed.

Lemma border_of_None (c : ascii) :
  border_of c = None → c ≠ "*"%char /\ int c = Raise ValueError.
Proof.
  unfold border_of. case_decide as Hc; [discriminate|].
  destruct (is_digit c) eqn:E.
  - destruct (int_digit c E) as (h & -> & _). discriminate.
  - now rewrite (int_not_digit c E).
Qed.

Lemma hint_test (count hint : Z) :
  (if decide (count ≠ hint) then Ok false else Ok true)
  = Ok (bool_decide (count = hint)).
Proof. case_decide; case_bool_decide; done. Qed.

Lemma check_left_border (c : ascii) (rest : str) (heights : list Z) (b : border) :
  border_of c = Some b →
  check_left (c :: rest) heights = Ok (side_accepts b heights).
Proof.
  intros Hb. unfold check_left. rewrite index_first, bind_Ok.
  apply border_of_inv in Hb as [[-> ->]|(Hne & h & Hh & ->)].
  { now rewrite decide_False by (intros Hc; now apply Hc). }
  rewrite (decide_True _ _ Hne).
  rewrite while_left_count, !bind_Ok, Hh, bind_Ok. apply hint_test.
Qed.

Lemma check_left_junk (c : ascii) (rest : str) (heights : list Z) :
  border_of c = None → check_left (c :: rest) heights = Raise ValueError.
Proof.
  intros Hb. apply border_of_None in Hb as [Hne Hint].
  unfold check_left. rewrite index_first, bind_Ok, (decide_True _ _ Hne).
  now rewrite while_left_count, !bind_Ok, Hint.
Qed.

Lemma check_right_border (rest : str) (c : ascii) (heights : list Z) (b : border) :
  border_of c = Some b →
  check_right (rest ++ [c]) heights = Ok (side_accepts b (rev heights)).
Proof.
  intros Hb. unfold check_right. rewrite index_last, bind_Ok.
  apply border_of_inv in Hb as [[-> ->]|(Hne & h & Hh & ->)].
  { now rewrite decide_False by (intros Hc; now apply Hc). }
  rewrite (decide_True _ _ Hne).
  rewrite while_right_count, !bind_Ok, Hh, bind_Ok. apply hint_test.
Qed.

Lemma check_right_junk (rest : str) (c : ascii) (heights : list Z) :
  border_of c = None → check_right (rest ++ [c]) heights = Raise ValueError.
Proof.
  intros Hb. apply border_of_None in Hb as [Hne Hint].
  unfold check_right. rewrite index_last, bind_Ok, (decide_True _ _ Hne).
  now rewrite while_right_count, !bind_Ok, Hint.
Qed.

(** The whole function on a line with two border cells. *)
Lemma check_visibility_sides (l r : ascii) (interior : str) (heights : list Z)
    (bl br : border) :
  mapM int interior = Ok heights →
  border_of l = Some bl → border_of r = Some br →
  check_visibility (l :: interior ++ [r])
  = Ok (side_accepts bl heights && side_accepts br (rev heights)).
Proof.
  intros Hh Hl Hr. unfold check_visibility.
  rewrite slice_between, Hh, bind_Ok, (check_left_border _ _ _ _ Hl), bind_Ok.
  destruct (side_accepts bl heights); [|done]. cbn [negb andb].
  change (l :: interior ++ [r]) with ((l :: interior) ++ [r]).
  rewrite (check_right_border _ _ _ _ Hr), bind_Ok.
  now destruct (side_accepts br (rev heights)).
Qed.

Lemma check_visibility_not_digits (line : str) :
  ¬ Forall (fun c => is_digit c = true) (slice line 1 (-1)) →
  check_visibility line = Raise ValueError.
Proof.
  intros H. unfold check_visibility. now rewrite (mapM_int_not_digits _ H).
Qed.

(** A line of two cells or more is a border cell, the cells in between and
    a border cell. *)
Lemma line_split {A} (line : list A) :
  2 <= len line →
  exists l interior r, line = l :: interior ++ [r].
Proof.
  intros H. destruct line as [|l rest]; [unfold len in H; simpl in H; lia|].
  destruct (rev rest) as [|r rinterior] eqn:E.
  - apply (f_equal (@rev A)) in E. rewrite rev_involutive in E. subst rest.
    unfold len in H. simpl in H. lia.
  - exists l, (rev rinterior), r.
    apply (f_equal (@rev A)) in E. rewrite rev_involutive in E. now subst rest.
Qed.

(** ** Visible buildings *)

Lemma gt_above (h h' : Z) (curr_max : num) :
  gt h curr_max = true → h < h' → gt h' curr_max = true.
Proof. destruct curr_max as [|m]; cbn; [done|]. lia. Qed.

Lemma visible_from_places (heights : list Z) : forall (before : list Z) curr_max,
  (forall h, gt h curr_max = forallb (fun x => x <? h) before) →
  visible_from curr_max heights
  = len (filter (fun i => visible_at (before ++ heights) i = true)
                (seq (length before) (length heights))).
Proof.
  induction heights as [|h rest IH]; intros before curr_max Hmax; [done|].
  cbn [visible_from length seq].
  assert (Hat : visible_at (before ++ h :: rest) (length before) = gt h curr_max).
  { unfold visible_at. rewrite list_lookup_middle by done.
    now rewrite take_app_length, Hmax. }
  replace (before ++ h :: rest) with ((before ++ [h]) ++ rest) in *
    by now rewrite <- app_assoc.
  replace (S (length before)) with (length (before ++ [h]))
    by (rewrite length_app; cbn; lia).
  destruct (gt h curr_max) eqn:Hgt.
  - rewrite filter_cons_True by done. rewrite len_cons. f_equal.
    apply IH. intros h'. rewrite forallb_app. cbn. rewrite andb_true_r.
    destruct (Z.ltb_spec h h') as [Hlt|Hge]; [|now rewrite andb_false_r].
    now rewrite <- Hmax, (gt_above h h' curr_max Hgt Hlt).
  - rewrite filter_cons_False by (rewrite Hat; done).
    apply IH. intros h'. rewrite forallb_app. cbn. rewrite andb_true_r, <- Hmax.
    destruct (gt h' curr_max) eqn:Hgt'; [|done].
    destruct curr_max as [|m]; [done|]. cbn in *. lia.
Qed.

(** The running maximum counts the visible buildings. *)
Lemma visible_count_places (heights : list Z) :
  visible_count heights = len (visible_places heights).
Proof. now apply (visible_from_places heights [] NegInf). Qed.

(** ** Increasing heights *)

Lemma visible_from_increasing (heights : list Z) : forall curr_max,
  Sorted Z.lt heights →
  (forall h, head heights = Some h → gt h curr_max = true) →
  visible_from curr_max heights = len heights.
Proof.
  induction heights as [|h rest IH]; intros curr_max Hsorted Hhead; [done|].
  cbn [visible_from]. rewrite (Hhead h eq_refl).
  apply Sorted_inv in Hsorted as [Hrest Hrel].
  rewrite (IH (Int h) Hrest), len_cons; [done|].
  intros h' Hh'. destruct rest as [|h'' rest']; [done|].
  injection Hh' as ->. apply HdRel_inv in Hrel. cbn. lia.
Qed.

Lemma visible_count_increasing (heights : list Z) :
  Sorted Z.lt heights → visible_count heights = len heights.
Proof. intros H. now apply visible_from_increasing. Qed.

Lemma border_of_cell (c : ascii) :
  c = "*"%char \/ is_digit c = true → exists b, border_of c = Some b.
Proof.
  intros [->|Hd]; [by exists Filler|].
  destruct (int_digit c Hd) as (h & Hh & _). unfold border_of.
  case_decide; [by exists Filler|]. rewrite Hh. by exists (Hint h).
Qed.

Lemma check_visibility_returns (l r : ascii) (interior : str) :
  Forall (fun c => is_digit c = true) interior →
  (l = "*"%char \/ is_digit l = true) →
  (r = "*"%char \/ is_digit r = true) →
  returns (check_visibility (l :: interior ++ [r])).
Proof.
  intros Hd Hl Hr.
  destruct (mapM_int_digits _ Hd) as [hs Hhs].
  destruct (border_of_cell _ Hl) as [bl Hbl].
  destruct (border_of_cell _ Hr) as [br Hbr].
  eexists. now apply (check_visibility_sides l r interior hs bl br).
Qed.

(** ** Loops over indexes *)

Lemma index_nonneg {A} (l : list A) (i : Z) :
  0 <= i →
  index l i = match l !! Z.to_nat i with
              | Some a => Ok a
              | None => Raise IndexError
              end.
Proof.
  intros Hi. unfold index.
  destruct (Z.ltb_spec i 0); [lia|]. destruct (Z.ltb_spec i 0); [lia|]. done.
Qed.

Lemma interior_length {A} (l : list A) :
  length (interior l) = (length l - 2)%nat.
Proof.
  unfold interior, slice, clamp. change (1 <? 0) with false.
  change (-1 <? 0) with true. cbv iota zeta.
  rewrite length_take, length_drop. unfold len. lia.
Qed.

Lemma interior_lookup {A} (l : list A) (k : nat) (a : A) :
  interior l !! k = Some a ↔ l !! S k = Some a /\ (S k < length l - 1)%nat.
Proof.
  unfold interior, slice, clamp. change (1 <? 0) with false.
  change (-1 <? 0) with true. cbv iota zeta.
  replace (Z.to_nat (Z.min 1 (len l))) with (Nat.min 1 (length l))
    by (unfold len; lia).
  replace (Z.to_nat (Z.max 0 (-1 + len l))) with (length l - 1)%nat
    by (unfold len; lia).
  rewrite lookup_take_Some, lookup_drop. split.
  - intros [Hl Hk]. destruct l as [|x l]; [done|].
    cbn in *. split; [done|lia].
  - intros [Hl Hk]. destruct l as [|x l]; [done|].
    cbn in *. split; [done|lia].
Qed.

Lemma interior_subseteq {A} (l : list A) : interior l ⊆ l.
Proof.
  unfold interior, slice. etrans; [apply subseteq_take | apply subseteq_drop].
Qed.

(** The indexes [range(1, len(l) - 1)] run over the interior of [l]. *)
Lemma range_interior {A} (l : list A) :
  Forall2 (fun i a => index l i = Ok a) (range 1 (len l - 1)) (interior l).
Proof.
  apply Forall2_same_length_lookup_2.
  - unfold range. rewrite length_map, length_seq, interior_length.
    unfold len. lia.
  - intros k i a Hi Ha. unfold range in Hi.
    rewrite list_lookup_fmap in Hi.
    destruct (seq 0 _ !! k) as [k'|] eqn:Hk; [|done].
    apply lookup_seq in Hk as [-> _]. injection Hi as <-.
    apply interior_lookup in Ha as [Ha _].
    rewrite index_nonneg by lia.
    replace (Z.to_nat (1 + Z.of_nat k)) with (S k) by lia.
    now rewrite Ha.
Qed.

Lemma for_all_Forall2 {X} (body : Z → result bool) (f : X → bool)
    (idxs : list Z) (xs : list X) :
  Forall2 (fun i x => body i = Ok (f x)) idxs xs →
  for_all body idxs = Ok (forallb f xs).
Proof.
  induction 1 as [|i x idxs xs Hi _ IH]; [done|].
  cbn. rewrite Hi, bind_Ok. now destruct (f x).
Qed.

Lemma for_all_ext (body body' : Z → result bool) (idxs : list Z) :
  (forall i, i ∈ idxs → body i = body' i) →
  for_all body idxs = for_all body' idxs.
Proof.
  induction idxs as [|i idxs IH]; intros H; [done|].
  cbn. rewrite (H i) by left. destruct (body' i) as [[]|]; cbn; [|done..].
  apply IH. intros j Hj. apply H. now right.
Qed.

Lemma unique_cells_ext (cell cell' : Z → result ascii) (idxs : list Z) :
  (forall i, i ∈ idxs → cell i = cell' i) →
  forall heights, unique_cells cell idxs heights = unique_cells cell' idxs heights.
Proof.
  induction idxs as [|i idxs IH]; intros H heights; [done|].
  cbn. rewrite (H i) by left.
  assert (Hrest : forall j, j ∈ idxs → cell j = cell' j)
    by (intros j Hj; apply H; now right).
  destruct (cell' i) as [c|]; cbn; [|done].
  repeat case_decide; auto.
Qed.

(** The inner loop accepts when no cell other than the filler is in the set
    or stands twice. *)
Lemma unique_cells_seen (cell : Z → result ascii) (idxs : list Z) (cells : str) :
  Forall2 (fun i c => cell i = Ok c) idxs cells →
  forall heights : gset ascii,
  unique_cells cell idxs heights
  = Ok (bool_decide (distinct cells
                     /\ Forall (fun c => c ∉ heights) (filter not_filler cells))).
Proof.
  unfold distinct, not_filler.
  induction 1 as [|i c idxs cells Hi _ IH]; intros heights.
  { reflexivity. }
  cbn [unique_cells]. rewrite Hi, bind_Ok. case_decide as Hc.
  - rewrite IH, filter_cons_False by (intros Hne; now apply Hne). done.
  - rewrite filter_cons_True by done. case_decide as Hin.
    + rewrite bool_decide_eq_false_2; [done|].
      intros [_ HF]. apply Forall_cons in HF as [HF _]. done.
    + rewrite IH. f_equal. apply bool_decide_ext.
      rewrite NoDup_cons, Forall_cons, !Forall_forall. split.
      * intros [Hnd HF]. repeat split; [|done|done|].
        -- intros Hc'. apply (HF c Hc'). set_solver.
        -- intros x Hx Hx'. apply (HF x Hx). set_solver.
      * intros [[Hc' Hnd] [_ HF]]. split; [done|].
        intros x Hx Hx'. apply elem_of_union in Hx' as [Hx'|Hx'].
        -- apply elem_of_singleton in Hx'. now subst x.
        -- now apply (HF x).
Qed.

Lemma unique_cells_distinct (cell : Z → result ascii) (idxs : list Z) (cells : str) :
  Forall2 (fun i c => cell i = Ok c) idxs cells →
  unique_cells cell idxs ∅ = Ok (bool_decide (distinct cells)).
Proof.
  intros H. rewrite (unique_cells_seen _ _ _ H). f_equal.
  apply bool_decide_ext. split; [now intros [? _]|]. intros Hd. split; [done|].
  apply Forall_forall. set_solver.
Qed.

(** ** Repeated cells *)

Lemma repeats_cons (P : ascii → Prop) (a : ascii) (cells : str) :
  repeats P (a :: cells) ↔ (P a /\ a ∈ cells) \/ repeats P cells.
Proof.
  split.
  - intros (i & j & c & Hij & Hi & Hj & Hc).
    destruct j as [|j]; [lia|]. destruct i as [|i]; cbn in Hi, Hj.
    + injection Hi as ->. left. split; [done|].
      apply list_elem_of_lookup. eauto.
    + right. exists i, j, c. repeat split; [lia|done..].
  - intros [[Ha Hin]|(i & j & c & Hij & Hi & Hj & Hc)].
    + apply list_elem_of_lookup in Hin as [j Hj].
      exists 0%nat, (S j), a. repeat split; [lia|done..].
    + exists (S i), (S j), c. repeat split; [lia|done..].
Qed.

Lemma distinct_cons (a : ascii) (cells : str) :
  distinct (a :: cells) ↔ ¬ (not_filler a /\ a ∈ cells) /\ distinct cells.
Proof.
  unfold distinct. destruct (decide (not_filler a)) as [Ha|Ha].
  - rewrite filter_cons_True, NoDup_cons, list_elem_of_filter by done. tauto.
  - rewrite filter_cons_False by done. tauto.
Qed.

Lemma distinct_no_repeats (cells : str) :
  distinct cells ↔ ¬ repeats not_filler cells.
Proof.
  induction cells as [|a cells IH].
  - split; [|intros _; constructor].
    intros _ (i & j & c & _ & Hi & _). done.
  - rewrite distinct_cons, repeats_cons, IH. tauto.
Qed.

Lemma not_distinct_repeats (cells : str) :
  ¬ distinct cells → repeats not_filler cells.
Proof.
  induction cells as [|a cells IH]; intros H.
  - destruct H. constructor.
  - rewrite distinct_cons in H. apply repeats_cons.
    destruct (decide (not_filler a /\ a ∈ cells)) as [Ha|Ha]; [now left|].
    right. apply IH. tauto.
Qed.

Lemma forallb_false {X} (f : X → bool) (xs : list X) :
  forallb f xs = false ↔ exists x, x ∈ xs /\ f x = false.
Proof.
  induction xs as [|x xs IH]; cbn.
  - split; [done|]. intros (x & Hx & _). inversion Hx.
  - rewrite andb_false_iff, IH. split.
    + intros [Hx|(y & Hy & Hfy)]; [exists x|exists y]; split; try done;
        [left | now right].
    + intros (y & Hy & Hfy). apply elem_of_cons in Hy as [->|Hy]; [now left|].
      right. eauto.
Qed.

(** ** check_uniqueness_in_rows *)

(** The function accepts when the interior cells of every interior row are
    distinct; it never raises. *)
Lemma check_uniqueness_in_rows_distinct (board : list str) :
  check_uniqueness_in_rows board
  = Ok (forallb (fun cells => bool_decide (distinct cells)) (interior_cells board)).
Proof.
  unfold check_uniqueness_in_rows, interior_cells.
  rewrite (for_all_Forall2 _ (fun row => bool_decide (distinct (interior row)))
             _ (interior board)).
  - f_equal. induction (interior board) as [|row rows IH]; [done|].
    cbn [forallb map]. now rewrite IH.
  - eapply Forall2_impl; [apply range_interior|].
    intros i row Hi. cbn beta. rewrite Hi, bind_Ok.
    apply unique_cells_distinct.
    eapply Forall2_impl; [apply range_interior|].
    intros j c Hj. unfold cell_at. now rewrite Hi, bind_Ok.
Qed.

Lemma check_uniqueness_in_rows_false (board : list str) :
  check_uniqueness_in_rows board = Ok false
  ↔ exists cells, cells ∈ interior_cells board /\ repeats not_filler cells.
Proof.
  rewrite check_uniqueness_in_rows_distinct. split.
  - intros [= H]. apply forallb_false in H as (cells & Hin & Hd).
    exists cells. split; [done|]. apply not_distinct_repeats.
    by apply bool_decide_eq_false in Hd.
  - intros (cells & Hin & Hr). f_equal. apply forallb_false.
    exists cells. split; [done|]. apply bool_decide_eq_false.
    intros Hd. by apply distinct_no_repeats in Hd.
Qed.

(** ** Columns *)

Lemma cell_at_nonneg (board : list str) (i j : Z) :
  0 <= i → 0 <= j →
  cell_at board i j
  = match board !! Z.to_nat i ≫= (fun row => row !! Z.to_nat j) with
    | Some c => Ok c
    | None => Raise IndexError
    end.
Proof.
  intros Hi Hj. unfold cell_at. rewrite index_nonneg by done.
  destruct (board !! Z.to_nat i) as [row|]; [|done].
  cbn. now rewrite index_nonneg.
Qed.

Lemma column_cells_lookup (board : list str) (j : nat) :
  Forall (fun row => (j < length row)%nat) board →
  forall i, column_cells board j !! i = board !! i ≫= (fun row => row !! j).
Proof.
  unfold column_cells. induction 1 as [|row board Hrow _ IH]; intros i; [done|].
  destruct (lookup_lt_is_Some_2 row j Hrow) as [c Hc].
  cbn. rewrite Hc. destruct i as [|i]; cbn; [done|]. apply IH.
Qed.

Lemma column_cells_length (board : list str) (j : nat) :
  Forall (fun row => (j < length row)%nat) board →
  length (column_cells board j) = length board.
Proof.
  unfold column_cells. induction 1 as [|row board Hrow _ IH]; [done|].
  destruct (lookup_lt_is_Some_2 row j Hrow) as [c Hc].
  cbn. rewrite Hc. cbn. now rewrite IH.
Qed.

Lemma square_rectangular (board : list str) : square board → rectangular board.
Proof.
  intros [Hne Hall]. destruct board as [|row0 rest]; [done|].
  exists row0. split; [done|].
  pose proof (Forall_inv Hall) as H0. cbn beta in H0.
  eapply Forall_impl; [exact Hall|]. intros row Hrow. cbn beta in *. congruence.
Qed.

Lemma transpose_lookup (row0 : str) (rest : list str) (j : nat) :
  (j < length row0)%nat →
  transpose (row0 :: rest) !! j = Some (column_cells (row0 :: rest) j).
Proof.
  intros Hj. unfold transpose.
  change (map ?f ?l) with (f <$> l). rewrite list_lookup_fmap.
  now rewrite lookup_seq_lt.
Qed.

Lemma transpose_length (row0 : str) (rest : list str) :
  length (transpose (row0 :: rest)) = length row0.
Proof. unfold transpose. now rewrite length_map, length_seq. Qed.

(** On a rectangular board the column check is the row check of the
    transposed board. *)
Lemma check_uniqueness_in_columns_rows (board : list str) :
  rectangular board →
  check_uniqueness_in_columns board = check_uniqueness_in_rows (transpose board).
Proof.
  intros (row0 & Hhead & Hall). destruct board as [|row0' rest]; [done|].
  injection Hhead as ->.
  unfold check_uniqueness_in_columns, check_uniqueness_in_rows.
  rewrite index_first, bind_Ok.
  replace (len (transpose (row0 :: rest))) with (len row0)
    by (unfold len; now rewrite transpose_length).
  apply for_all_ext. intros j Hj. apply elem_of_range in Hj.
  assert (Hjn : (Z.to_nat j < length row0)%nat) by (unfold len in Hj; lia).
  assert (Hcols : Forall (fun row => (Z.to_nat j < length row)%nat) (row0 :: rest)).
  { eapply Forall_impl; [exact Hall|]. intros row Hrow. cbn beta in *. lia. }
  rewrite (index_nonneg (transpose _)) by lia.
  rewrite (transpose_lookup _ _ _ Hjn), bind_Ok.
  replace (len (column_cells (row0 :: rest) (Z.to_nat j))) with (len (row0 :: rest))
    by (unfold len; now rewrite column_cells_length).
  apply unique_cells_ext. intros i Hi. apply elem_of_range in Hi.
  rewrite !cell_at_nonneg by lia.
  rewrite (transpose_lookup _ _ _ Hjn). cbn [mbind option_bind].
  now rewrite (column_cells_lookup _ _ Hcols).
Qed.

Lemma check_uniqueness_in_columns_returns (board : list str) :
  rectangular board → returns (check_uniqueness_in_columns board).
Proof.
  intros H. rewrite (check_uniqueness_in_columns_rows _ H),
    check_uniqueness_in_rows_distinct. by eexists.
Qed.

(** ** check_not_finished_board *)

Lemma row_finished_true (row : str) :
  row_finished row = true ↔ "?"%char ∉ row.
Proof.
  induction row as [|cell rest IH]; cbn.
  - split; [|done]. intros _ H. inversion H.
  - rewrite not_elem_of_cons. case_decide as Hc.
    + subst cell. split; [done|]. intros [H _]. done.
    + rewrite IH. split; [|tauto]. intros H. split; [congruence|done].
Qed.

Lemma check_not_finished_board_true (board : list str) :
  check_not_finished_board board = true
  ↔ forall row, row ∈ board → "?"%char ∉ row.
Proof.
  induction board as [|row rest IH]; cbn.
  - split; [|done]. intros _ row H. inversion H.
  - destruct (row_finished row) eqn:E.
    + rewrite IH. apply row_finished_true in E. split.
      * intros H row' Hrow'. apply elem_of_cons in Hrow' as [->|Hrow']; auto.
      * intros H row' Hrow'. apply H. now right.
    + split; [done|]. intros H.
      assert (Hrow : "?"%char ∉ row) by (apply H; left).
      apply row_finished_true in Hrow. congruence.
Qed.

Lemma ends_between {A} (a b : A) (m : list A) : ends (a :: m ++ [b]) = [a; b].
Proof.
  unfold ends.
  replace (length (a :: m ++ [b]) - 1)%nat with (length (a :: m))
    by (cbn; rewrite length_app; cbn; lia).
  change (a :: m ++ [b]) with ((a :: m) ++ [b]).
  now rewrite drop_app_length.
Qed.

(** A list is made of its two ends and of its interior. *)
Lemma elem_of_ends_interior {A} (l : list A) (x : A) :
  x ∈ l ↔ x ∈ ends l \/ x ∈ interior l.
Proof.
  destruct (decide (2 <= len l)) as [H|H].
  - destruct (line_split l H) as (a & m & b & ->).
    unfold interior. rewrite slice_between, ends_between.
    rewrite !elem_of_cons, elem_of_app, !elem_of_cons, !elem_of_nil. tauto.
  - destruct l as [|a [|b l]].
    + split; [intros Hx; inversion Hx|]. intros [Hx|Hx]; inversion Hx.
    + change (ends [a]) with [a; a]. change (interior [a]) with (@nil A).
      rewrite !elem_of_cons, !elem_of_nil. tauto.
    + unfold len in H. cbn in H. lia.
Qed.

(** ** Stripping whitespace *)

Lemma lstrip_spec (text : str) :
  exists pre, text = pre ++ lstrip text
              /\ Forall (fun c => isspace c = true) pre
              /\ (forall c, head (lstrip text) = Some c → isspace c = false).
Proof.
  induction text as [|c rest (pre & Heq & Hpre & Hhead)].
  - exists []. repeat split; [constructor|done].
  - cbn [lstrip]. destruct (isspace c) eqn:E.
    + exists (c :: pre). split; [cbn; now f_equal|]. split; [now constructor|done].
    + exists []. split; [done|]. split; [constructor|]. now intros c' [= <-].
Qed.

Lemma rstrip_spec (text : str) :
  exists post, text = rstrip text ++ post
               /\ Forall (fun c => isspace c = true) post
               /\ (forall c, last (rstrip text) = Some c → isspace c = false).
Proof.
  unfold rstrip. destruct (lstrip_spec (rev text)) as (pre & Heq & Hpre & Hhead).
  exists (rev pre). split; [|split].
  - rewrite <- rev_app_distr, <- Heq. now rewrite rev_involutive.
  - apply Forall_forall. intros c Hc. rewrite Forall_forall in Hpre.
    apply Hpre. rewrite list_elem_of_In in *. now apply in_rev.
  - intros c Hc. apply Hhead. rewrite <- Hc.
    generalize (lstrip (rev text)). intros l.
    destruct l as [|x l]; [done|]. cbn [rev]. now rewrite last_snoc.
Qed.

Lemma strip_stripped_of (raw : str) : stripped_of raw (strip raw).
Proof.
  unfold strip. destruct (lstrip_spec raw) as (pre & Heq & Hpre & Hhead).
  destruct (rstrip_spec (lstrip raw)) as (post & Heq' & Hpost & Hlast).
  exists pre, post. split; [now rewrite <- Heq', <- Heq|].
  split; [done|]. split; [done|]. split; [|done].
  intros c Hc. apply Hhead. rewrite Heq'.
  destruct (rstrip (lstrip raw)); [done|exact Hc].
Qed.

(** What is left of a line is determined by the line. *)
Lemma stripped_of_unique (raw line line' : str) :
  stripped_of raw line → stripped_of raw line' → line = line'.
Proof.
  assert (Hpre : forall (pre pre' l l' : str),
    pre ++ l = pre' ++ l' →
    Forall (fun c => isspace c = true) pre →
    Forall (fun c => isspace c = true) pre' →
    (forall c, head l = Some c → isspace c = false) →
    (forall c, head l' = Some c → isspace c = false) →
    l ≠ [] → l' ≠ [] → l = l').
  { induction pre as [|a pre IH]; intros pre' l l' Heq Hp Hp' Hl Hl' Hn Hn'.
    - destruct pre' as [|a' pre']; [done|]. destruct l as [|c l]; [done|].
      cbn in Heq. injection Heq as -> _. apply Forall_cons in Hp' as [Ha _].
      rewrite (Hl a' eq_refl) in Ha. discriminate.
    - destruct pre' as [|a' pre'].
      + destruct l' as [|c l']; [done|]. cbn in Heq. injection Heq as -> _.
        apply Forall_cons in Hp as [Ha _].
        rewrite (Hl' c eq_refl) in Ha. discriminate.
      + cbn in Heq. injection Heq as -> Heq.
        apply Forall_cons in Hp as [_ Hp]. apply Forall_cons in Hp' as [_ Hp'].
        now apply (IH pre'). }
  intros (pre & post & Heq & Hp & Hq & Hh & Hl)
         (pre' & post' & Heq' & Hp' & Hq' & Hh' & Hl').
  destruct (decide (line = [])) as [->|Hne]; destruct (decide (line' = [])) as [->|Hne'];
    [done| | |].
  - exfalso. cbn in Heq. rewrite Heq in Heq'. clear Heq.
    destruct line' as [|c l'] using rev_ind; [done|].
    assert (Hc : isspace c = false) by (apply Hl'; apply last_snoc).
    assert (Hin : c ∈ pre ++ post).
    { rewrite Heq'. rewrite !elem_of_app. right. left. right. left. }
    apply elem_of_app in Hin as [Hin|Hin];
      [rewrite Forall_forall in Hp; rewrite (Hp c Hin) in Hc
      |rewrite Forall_forall in Hq; rewrite (Hq c Hin) in Hc]; discriminate.
  - exfalso. cbn in Heq'. rewrite Heq' in Heq. clear Heq'.
    destruct line as [|c l] using rev_ind; [done|].
    assert (Hc : isspace c = false) by (apply Hl; apply last_snoc).
    assert (Hin : c ∈ pre' ++ post').
    { rewrite Heq. rewrite !elem_of_app. right. left. right. left. }
    apply elem_of_app in Hin as [Hin|Hin];
      [rewrite Forall_forall in Hp'; rewrite (Hp' c Hin) in Hc
      |rewrite Forall_forall in Hq'; rewrite (Hq' c Hin) in Hc]; discriminate.
  - assert (Hmid : line ++ post = line' ++ post').
    { apply (Hpre pre pre'); try done.
      + congruence.
      + intros c Hc. apply Hh. destruct line; [done|exact Hc].
      + intros c Hc. apply Hh'. destruct line'; [done|exact Hc].
      + now destruct line.
      + now destruct line'. }
    apply (f_equal (@rev ascii)) in Hmid. rewrite !rev_app_distr in Hmid.
    rewrite <- (rev_involutive line), <- (rev_involutive line'). f_equal.
    apply (Hpre (rev post) (rev post')); try done.
    + apply Forall_forall. intros c Hc. rewrite Forall_forall in Hq. apply Hq.
      rewrite list_elem_of_In in *. now apply in_rev.
    + apply Forall_forall. intros c Hc. rewrite Forall_forall in Hq'. apply Hq'.
      rewrite list_elem_of_In in *. now apply in_rev.
    + intros c Hc. apply Hl. rewrite <- Hc. clear.
      destruct line as [|x l] using rev_ind; [done|].
      now rewrite rev_app_distr, last_snoc.
    + intros c Hc. apply Hl'. rewrite <- Hc. clear.
      destruct line' as [|x l] using rev_ind; [done|].
      now rewrite rev_app_distr, last_snoc.
    + intros H. apply Hne. apply (f_equal (@rev ascii)) in H.
      now rewrite rev_involutive in H.
    + intros H. apply Hne'. apply (f_equal (@rev ascii)) in H.
      now rewrite rev_involutive in H.
Qed.

(** ** Reading lines *)

Lemma split_lines_concat (text : str) : concat (split_lines text) = text.
Proof.
  induction text as [|c rest IH]; [done|].
  cbn [split_lines]. case_decide; [cbn; now rewrite IH|].
  destruct (split_lines rest) as [|line lines]; cbn in *; now subst.
Qed.

Lemma split_lines_nonempty (text : str) :
  Forall (fun line => line ≠ []) (split_lines text).
Proof.
  induction text as [|c rest IH]; [constructor|].
  cbn [split_lines]. case_decide; [now constructor|].
  destruct (split_lines rest) as [|line lines]; [now repeat constructor|].
  apply Forall_cons in IH as [_ IH]. now constructor.
Qed.

(** ** check_skyscrapers *)

Lemma and_Ok (a b : bool) : and_ (Ok a) (Ok b) = Ok (a && b).
Proof. now destruct a. Qed.

(** ** Visibility on well-formed boards *)

Lemma height_digit_is_digit (c : ascii) : height_digit c → is_digit c = true.
Proof.
  unfold height_digit, is_digit. intros [H1 H2].
  apply andb_true_intro. split; apply Nat.leb_le; lia.
Qed.

Lemma for_all_returns (body : Z → result bool) (idxs : list Z) :
  (forall i, i ∈ idxs → returns (body i)) → returns (for_all body idxs).
Proof.
  induction idxs as [|i idxs IH]; intros H; [by eexists|].
  cbn. destruct (H i) as [b ->]; [left|]. rewrite bind_Ok.
  destruct b; cbn; [|by eexists]. apply IH. intros j Hj. apply H. now right.
Qed.

Lemma mapM_Forall2 {X Y} (f : X → result Y) (xs : list X) (ys : list Y) :
  Forall2 (fun x y => f x = Ok y) xs ys → mapM f xs = Ok ys.
Proof.
  induction 1 as [|x y xs ys Hx _ IH]; [done|].
  cbn. rewrite Hx. cbn. now rewrite IH.
Qed.

(** A line whose two ends are hints or fillers and whose other cells are
    digits is checked without an exception. *)
Lemma check_visibility_line_returns (line : str) :
  2 <= len line →
  (forall (k : nat) c, line !! k = Some c →
     if decide (k = 0%nat \/ k = (length line - 1)%nat)
     then c = "*"%char \/ is_digit c = true
     else is_digit c = true) →
  returns (check_visibility line).
Proof.
  intros Hlen Hcells. destruct (line_split line Hlen) as (l & m & r & ->).
  assert (Hn : length (l :: m ++ [r]) = S (S (length m))).
  { cbn. rewrite length_app. cbn. lia. }
  apply check_visibility_returns.
  - apply Forall_forall. intros c Hc.
    apply list_elem_of_lookup in Hc as [k Hk].
    specialize (Hcells (S k) c). rewrite Hn in Hcells.
    rewrite decide_False in Hcells.
    + apply Hcells. change ((l :: m ++ [r]) !! S k) with ((m ++ [r]) !! k).
      rewrite lookup_app_l; [done|]. now apply lookup_lt_Some in Hk.
    + apply lookup_lt_Some in Hk. lia.
  - specialize (Hcells 0%nat l eq_refl). rewrite decide_True in Hcells; auto.
  - specialize (Hcells (S (length m)) r). rewrite Hn in Hcells.
    rewrite decide_True in Hcells by (right; lia).
    apply Hcells.
    change ((l :: m ++ [r]) !! S (length m)) with ((m ++ [r]) !! length m).
    now rewrite list_lookup_middle.
Qed.

Lemma column_Forall2 (board : list str) (j : nat) :
  Forall (fun row => (j < length row)%nat) board →
  column board (Z.of_nat j) = Ok (column_cells board j).
Proof.
  intros Hall. unfold column. apply mapM_Forall2.
  apply Forall2_same_length_lookup_2.
  - unfold range. rewrite length_map, length_seq, (column_cells_length _ _ Hall).
    unfold len. lia.
  - intros k i c Hi Hc. unfold range in Hi. rewrite list_lookup_fmap in Hi.
    destruct (seq 0 _ !! k) as [k'|] eqn:Hk; [|done].
    apply lookup_seq in Hk as [-> _]. injection Hi as <-.
    rewrite cell_at_nonneg by lia.
    rewrite (column_cells_lookup _ _ Hall) in Hc.
    replace (Z.to_nat (0 + Z.of_nat k)) with k by lia.
    rewrite Nat2Z.id. now rewrite Hc.
Qed.

Section WellFormed.

Variable board : list str.
Hypothesis Hwf : well_formed board.
Hypothesis Hfinished : check_not_finished_board board = true.

Lemma well_formed_row_length (i : nat) (row : str) :
  board !! i = Some row → length row = length board.
Proof.
  intros Hrow. destruct Hwf as [[_ Hall] _]. rewrite Forall_forall in Hall.
  apply Hall, list_elem_of_lookup. eauto.
Qed.

(** On a finished board every cell is a digit, or a filler on the border. *)
Lemma well_formed_cell (i j : nat) (row : str) (c : ascii) :
  board !! i = Some row → row !! j = Some c →
  if decide (on_border (length board) i j)
  then c = "*"%char \/ is_digit c = true
  else is_digit c = true.
Proof.
  intros Hrow Hc. destruct Hwf as [_ Hcells].
  specialize (Hcells i j row c Hrow Hc).
  case_decide.
  - destruct Hcells as [->|Hd]; [now left|right].
    now apply height_digit_is_digit.
  - destruct Hcells as [->|Hd]; [|now apply height_digit_is_digit].
    exfalso. rewrite check_not_finished_board_true in Hfinished.
    apply (Hfinished row); apply list_elem_of_lookup; eauto.
Qed.

Lemma check_horizontal_visibility_returns :
  returns (check_horizontal_visibility board).
Proof.
  unfold check_horizontal_visibility. apply for_all_returns.
  intros i Hi. apply elem_of_range in Hi.
  destruct (index_in_range board i) as (row & Hrow & ->); [lia|].
  rewrite bind_Ok. pose proof (well_formed_row_length _ _ Hrow) as Hlen.
  apply check_visibility_line_returns; [unfold len in *; lia|].
  intros k c Hc. pose proof (well_formed_cell _ _ _ _ Hrow Hc) as Hcell.
  rewrite Hlen. unfold on_border in Hcell. unfold len in Hi.
  repeat case_decide; try done; [lia | by right].
Qed.

Lemma check_vertical_visibility_returns :
  returns (check_vertical_visibility board).
Proof.
  unfold check_vertical_visibility.
  assert (Hne : 0 < len board).
  { destruct Hwf as [[Hne _] _]. unfold len. destruct board; [done|cbn; lia]. }
  destruct (index_in_range board 0) as (row0 & Hrow0 & ->); [lia|].
  rewrite bind_Ok.
  pose proof (well_formed_row_length _ _ Hrow0) as Hlen0.
  apply for_all_returns. intros j Hj. apply elem_of_range in Hj.
  unfold len in Hj. rewrite Hlen0 in Hj.
  assert (Hall : Forall (fun row => (Z.to_nat j < length row)%nat) board).
  { apply Forall_forall. intros row Hrow.
    apply list_elem_of_lookup in Hrow as [i Hrow].
    rewrite (well_formed_row_length _ _ Hrow). lia. }
  replace j with (Z.of_nat (Z.to_nat j)) at 1 by lia.
  rewrite (column_Forall2 _ _ Hall), bind_Ok.
  pose proof (column_cells_length _ _ Hall) as Hlen.
  apply check_visibility_line_returns; [unfold len; lia|].
  intros k c Hc. rewrite (column_cells_lookup _ _ Hall) in Hc.
  destruct (board !! k) as [row|] eqn:Hrow; [|done]. cbn in Hc.
  pose proof (well_formed_cell _ _ _ _ Hrow Hc) as Hcell.
  rewrite Hlen. unfold on_border in Hcell.
  repeat case_decide; try done; [lia | by right].
Qed.

End WellFormed.

(** ** The doctests of the source *)

Example doctest_read_input :
  read_input (holding check_txt) (s "docs/check.txt") = Ok check_txt.
Proof. vm_compute. reflexivity. Qed.

Example doctest_check_visibility_1 :
  check_visibility (s "412354*") = Ok true.
Proof. vm_compute. reflexivity. Qed.

Example doctest_check_visibility_2 :
  check_visibility (s "4123542") = Ok true.
Proof. vm_compute. reflexivity. Qed.

Example doctest_check_visibility_3 :
  check_visibility (s "312354*") = Ok false.
Proof. vm_compute. reflexivity. Qed.

Example doctest_check_visibility_4 :
  check_visibility (s "3123545") = Ok false.
Proof. vm_compute. reflexivity. Qed.

Example doctest_check_visibility_5 :
  check_visibility (s "*12354*") = Ok true.
Proof. vm_compute. reflexivity. Qed.

Example doctest_check_visibility_6 :
  check_visibility (s "*125342") = Ok true.
Proof. vm_compute. reflexivity. Qed.

Example doctest_check_not_finished_board_1 :
  check_not_finished_board
    [s "***21**"; s "4?????*"; s "4?????*"; s "*?????5";
     s "*?????*"; s "*?????*"; s "*2*1***"] = false.
Proof. vm_compute. reflexivity. Qed.

Example doctest_check_not_finished_board_2 :
  check_not_finished_board check_txt = true.
Proof. vm_compute. reflexivity. Qed.

Example doctest_check_not_finished_board_3 :
  check_not_finished_board (<[3%nat := s "*5?3215"]> check_txt) = false.
Proof. vm_compute. reflexivity. Qed.

Example doctest_check_uniqueness_in_rows_1 :
  check_uniqueness_in_rows check_txt = Ok true.
Proof. vm_compute. reflexivity. Qed.

Example doctest_check_uniqueness_in_rows_2 :
  check_uniqueness_in_rows (<[0%nat := s "***22**"]> check_txt) = Ok true.
Proof. vm_compute. reflexivity. Qed.

Example doctest_check_uniqueness_in_rows_3 :
  check_uniqueness_in_rows (<[1%nat := s "452453*"]> check_txt) = Ok false.
Proof. vm_compute. reflexivity. Qed.

Example doctest_check_uniqueness_in_rows_4 :
  check_uniqueness_in_rows (<[3%nat := s "*553215"]> check_txt) = Ok false.
Proof. vm_compute. reflexivity. Qed.

Example doctest_check_uniqueness_in_columns_1 :
  check_uniqueness_in_columns check_txt = Ok true.
Proof. vm_compute. reflexivity. Qed.

Example doctest_check_uniqueness_in_columns_2 :
  check_uniqueness_in_columns
    (<[2%nat := s "4231452"]> (<[4%nat := s "*352142"]> check_txt)) = Ok true.
Proof. vm_compute. reflexivity. Qed.

Example doctest_check_uniqueness_in_columns_3 :
  check_uniqueness_in_columns (<[5%nat := s "*41534*"]> check_txt) = Ok false.
Proof. vm_compute. reflexivity. Qed.

Example doctest_check_uniqueness_in_columns_4 :
  check_uniqueness_in_columns (<[1%nat := s "432453*"]> check_txt) = Ok false.
Proof. vm_compute. reflexivity. Qed.

Example doctest_check_horizontal_visibility_1 :
  check_horizontal_visibility check_txt = Ok true.
Proof. vm_compute. reflexivity. Qed.

Example doctest_check_horizontal_visibility_2 :
  check_horizontal_visibility (<[1%nat := s "452453*"]> check_txt) = Ok false.
Proof. vm_compute. reflexivity. Qed.

Example doctest_check_horizontal_visibility_3 :
  check_horizontal_visibility (<[1%nat := s "452413*"]> check_txt) = Ok false.
Proof. vm_compute. reflexivity. Qed.

Example doctest_check_vertical_visibility_1 :
  check_vertical_visibility check_txt = Ok true.
Proof. vm_compute. reflexivity. Qed.

Example doctest_check_vertical_visibility_3 :
  check_vertical_visibility (<[1%nat := s "452413*"]> check_txt) = Ok false.
Proof. vm_compute. reflexivity. Qed.

Example doctest_check_skyscrapers :
  check_skyscrapers (holding check_txt) (s "docs/check.txt") = Ok true.
Proof. vm_compute. reflexivity. Qed.

(** ** Inputs on which the functions raise *)

Example check_skyscrapers_unreadable :
  check_skyscrapers (fun _ => None) (s "docs/check.txt") = Raise OSError.
Proof. vm_compute. reflexivity. Qed.

Example check_skyscrapers_empty_file :
  check_skyscrapers (holding []) (s "docs/check.txt") = Raise IndexError.
Proof. vm_compute. reflexivity. Qed.

Example check_uniqueness_in_columns_empty :
  check_uniqueness_in_columns [] = Raise IndexError
  /\ check_uniqueness_in_rows (transpose []) = Ok true.
Proof. split; vm_compute; reflexivity. Qed.

Example check_visibility_unknown :
  check_visibility (s "*1?3*") = Raise ValueError.
Proof. vm_compute. reflexivity. Qed.

Example check_visibility_empty_line :
  check_visibility [] = Raise IndexError.
Proof. vm_compute. reflexivity. Qed.

Example check_visibility_right_junk :
  check_visibility (s "11x") = Raise ValueError
  /\ check_visibility (s "21x") = Ok false.
Proof. split; vm_compute; reflexivity. Qed.

(** * The claims *)

(** ** check_visibility *)

(** C2: on a line made of a border cell, interior height digits and a border
    cell, where each border cell is the filler or a hint digit, the loop of
    each side counts the heights that exceed the running maximum when read
    from that side inward (the buildings higher than all those before
    them), a side bearing a hint accepts exactly when this count is the
    hint, and the line is valid exactly when both sides accept. *)
Theorem check_visibility_both_sides (l r : ascii) (interior : str)
    (heights : list Z) (bl br : border) :
  mapM int interior = Ok heights →
  border_of l = Some bl →
  border_of r = Some br →
  while_left heights 0 0 NegInf = Ok (visible_count heights)
  /\ while_right heights (len heights - 1) 0 NegInf
     = Ok (visible_count (rev heights))
  /\ check_left (l :: interior ++ [r]) heights = Ok (side_accepts bl heights)
  /\ check_right (l :: interior ++ [r]) heights
     = Ok (side_accepts br (rev heights))
  /\ check_visibility (l :: interior ++ [r])
     = Ok (side_accepts bl heights && side_accepts br (rev heights))
  /\ visible_count heights = len (visible_places heights)
  /\ visible_count (rev heights) = len (visible_places (rev heights)).
Proof.
  intros Hh Hl Hr.
  split; [apply while_left_count|].
  split; [apply while_right_count|].
  split; [now apply check_left_border|].
  split.
  { change (l :: interior ++ [r]) with ((l :: interior) ++ [r]).
    now apply check_right_border. }
  split; [now apply check_visibility_sides|].
  split; apply visible_count_places.
Qed.

Lemma check_visibility_both_sides_witness :
  check_visibility (s "4123542") = Ok true.
Proof.
  exact (proj1 (proj2 (proj2 (proj2 (proj2
    (check_visibility_both_sides "4" "2" (s "12354") [1; 2; 3; 5; 4]
       (Hint 4) (Hint 2) eq_refl eq_refl eq_refl)))))).
Defined.

(** C7: when the interior heights increase strictly as read from a side, the
    loop of that side counts all K of them, so a hint K on that side passes
    that side's check (and the whole line passes when the other side bears
    no hint). *)
Theorem increasing_heights_all_visible (l r : ascii) (interior : str)
    (heights : list Z) :
  mapM int interior = Ok heights →
  (Sorted Z.lt heights →
     while_left heights 0 0 NegInf = Ok (len heights)
     /\ (int l = Ok (len heights) →
         check_left (l :: interior ++ [r]) heights = Ok true
         /\ (r = "*"%char → check_visibility (l :: interior ++ [r]) = Ok true)))
  /\ (Sorted Z.lt (rev heights) →
     while_right heights (len heights - 1) 0 NegInf = Ok (len heights)
     /\ (int r = Ok (len heights) →
         check_right (l :: interior ++ [r]) heights = Ok true
         /\ (l = "*"%char → check_visibility (l :: interior ++ [r]) = Ok true))).
Proof.
  intros Hh.
  assert (Hhint : forall c k, int c = Ok k → border_of c = Some (Hint k)).
  { intros c k Hc. unfold border_of. rewrite Hc. case_decide; [|done].
    subst c. discriminate. }
  assert (Hrev : len (rev heights) = len heights).
  { unfold len. now rewrite length_rev. }
  split; intros Hsorted.
  - rewrite while_left_count, (visible_count_increasing _ Hsorted).
    split; [done|]. intros Hl. apply Hhint in Hl.
    split.
    + rewrite (check_left_border _ _ _ _ Hl). cbn.
      now rewrite (visible_count_increasing _ Hsorted), bool_decide_eq_true_2.
    + intros ->. rewrite (check_visibility_sides l "*" interior heights _ Filler Hh Hl eq_refl).
      cbn. now rewrite (visible_count_increasing _ Hsorted), bool_decide_eq_true_2.
  - rewrite while_right_count, (visible_count_increasing _ Hsorted), Hrev.
    split; [done|]. intros Hr. apply Hhint in Hr.
    split.
    + change (l :: interior ++ [r]) with ((l :: interior) ++ [r]).
      rewrite (check_right_border _ _ _ _ Hr). cbn.
      now rewrite (visible_count_increasing _ Hsorted), Hrev, bool_decide_eq_true_2.
    + intros ->. rewrite (check_visibility_sides "*" r interior heights Filler _ Hh eq_refl Hr).
      cbn. now rewrite (visible_count_increasing _ Hsorted), Hrev, bool_decide_eq_true_2.
Qed.

Lemma increasing_heights_all_visible_witness :
  while_left [1; 2; 4; 5] 0 0 NegInf = Ok 4
  /\ check_visibility (s "41245*") = Ok true.
Proof.
  assert (Hs : Sorted Z.lt [1; 2; 4; 5]) by (repeat constructor).
  destruct (proj1 (increasing_heights_all_visible "4" "*" (s "1245") [1; 2; 4; 5]
                     eq_refl) Hs) as [Hcount Hline].
  split; [exact Hcount|]. exact (proj2 (Hline eq_refl) eq_refl).
Defined.

(** C10, as the code has it: on a line of two cells or more whose interior
    cells are all decimal digits and whose two border cells are each the
    filler or a decimal digit, the function returns a boolean.  A non-digit
    interior cell makes it raise [ValueError], on every line; so does a left
    border cell that is neither the filler nor a digit, the interior being
    digits. *)
Theorem check_visibility_total_on_digits (line : str) :
  (2 <= len line →
   Forall (fun c => is_digit c = true) (slice line 1 (-1)) →
   (forall c, index line 0 = Ok c → c = "*"%char \/ is_digit c = true) →
   (forall c, index line (-1) = Ok c → c = "*"%char \/ is_digit c = true) →
   returns (check_visibility line))
  /\ (¬ Forall (fun c => is_digit c = true) (slice line 1 (-1)) →
      check_visibility line = Raise ValueError)
  /\ (forall c,
        Forall (fun c => is_digit c = true) (slice line 1 (-1)) →
        index line 0 = Ok c → c ≠ "*"%char → is_digit c = false →
        check_visibility line = Raise ValueError).
Proof.
  split; [|split].
  - intros Hlen Hd Hl Hr.
    destruct (line_split line Hlen) as (l & interior & r & ->).
    rewrite slice_between in Hd.
    apply check_visibility_returns; [done| |].
    + now apply Hl.
    + apply Hr. change (l :: interior ++ [r]) with ((l :: interior) ++ [r]).
      apply index_last.
  - apply check_visibility_not_digits.
  - intros c Hd Hc Hne Hnd. destruct line as [|c' rest].
    { rewrite index_empty in Hc. discriminate. }
    rewrite index_first in Hc. injection Hc as ->.
    destruct (mapM_int_digits _ Hd) as [hs Hhs].
    unfold check_visibility. rewrite Hhs, bind_Ok, check_left_junk; [done|].
    unfold border_of. rewrite decide_False, (int_not_digit c Hnd); done.
Qed.

Lemma check_visibility_total_on_digits_witness :
  returns (check_visibility (s "412354*")).
Proof.
  apply (proj1 (check_visibility_total_on_digits (s "412354*"))).
  - vm_compute. discriminate.
  - vm_compute. repeat constructor.
  - intros c [= <-]. right. reflexivity.
  - intros c [= <-]. left. reflexivity.
Defined.

(** C10 as it was stated fails: digits between the border cells do not
    suffice, since the hint of a border cell is converted too. *)
Lemma check_visibility_border_not_digit :
  2 <= len (s "x1*")
  /\ Forall (fun c => is_digit c = true) (slice (s "x1*") 1 (-1))
  /\ check_visibility (s "x1*") = Raise ValueError.
Proof.
  split; [vm_compute; discriminate|].
  split; [vm_compute; repeat constructor|]. vm_compute. reflexivity.
Qed.

(** ** check_not_finished_board *)

(** C3, as the code has it: the function returns true exactly when no cell
    of the board, border cells included, holds the unknown marker.  So it
    returns false on every board with an unknown marker in an interior cell,
    and on boards whose border holds no unknown marker it returns true
    exactly when no interior cell holds one. *)
Theorem check_not_finished_board_no_unknown (board : list str) :
  (check_not_finished_board board = true
   ↔ forall row, row ∈ board → "?"%char ∉ row)
  /\ ((exists cells, cells ∈ interior_cells board /\ "?"%char ∈ cells) →
      check_not_finished_board board = false)
  /\ ((forall cells, cells ∈ border_cells board → "?"%char ∉ cells) →
      (check_not_finished_board board = true
       ↔ forall cells, cells ∈ interior_cells board → "?"%char ∉ cells)).
Proof.
  assert (Hint : forall cells, cells ∈ interior_cells board →
                 exists row, row ∈ board /\ cells ⊆ row).
  { intros cells Hc. unfold interior_cells in Hc.
    apply list_elem_of_fmap in Hc as (row & -> & Hrow).
    exists row. split; [now apply interior_subseteq|apply interior_subseteq]. }
  split; [apply check_not_finished_board_true|]. split.
  - intros (cells & Hc & Hq). apply not_true_is_false.
    rewrite check_not_finished_board_true. intros H.
    destruct (Hint cells Hc) as (row & Hrow & Hsub).
    apply (H row Hrow). now apply Hsub.
  - intros Hborder. rewrite check_not_finished_board_true. split.
    + intros H cells Hc Hq. destruct (Hint cells Hc) as (row & Hrow & Hsub).
      apply (H row Hrow). now apply Hsub.
    + intros H row Hrow Hq. unfold border_cells, interior_cells in *.
      apply elem_of_ends_interior in Hrow as [Hrow|Hrow].
      * apply (Hborder row); [|done]. apply elem_of_app. now left.
      * apply elem_of_ends_interior in Hq as [Hq|Hq].
        -- apply (Hborder (ends row)); [|done]. apply elem_of_app. right.
           apply list_elem_of_fmap. eauto.
        -- apply (H (interior row)); [|done]. apply list_elem_of_fmap. eauto.
Qed.

Lemma check_not_finished_board_no_unknown_witness :
  check_not_finished_board [s "***"; s "*?*"; s "***"] = false.
Proof.
  apply (proj1 (proj2 (check_not_finished_board_no_unknown
                         [s "***"; s "*?*"; s "***"]))).
  exists (s "?"). split; [left|left].
Defined.

(** C3 as it was stated fails: an unknown marker in a border cell makes the
    function return false although no interior cell holds one. *)
Lemma check_not_finished_board_border_unknown :
  check_not_finished_board [s "?**"; s "*1*"; s "***"] = false
  /\ (forall cells, cells ∈ interior_cells [s "?**"; s "*1*"; s "***"] →
      "?"%char ∉ cells).
Proof.
  split; [reflexivity|]. intros cells Hc.
  change (interior_cells [s "?**"; s "*1*"; s "***"]) with [s "1"] in Hc.
  apply list_elem_of_singleton in Hc as ->. intros Hq.
  apply list_elem_of_singleton in Hq. discriminate.
Qed.

(** ** check_uniqueness_in_rows, check_uniqueness_in_columns *)

(** C5, as the code has it: the function returns false exactly when some
    interior row holds the same character, other than the filler, in two of
    its interior cells; the unknown marker counts like a height.  A height
    digit that stands twice therefore gives false.  The result depends on
    the interior cells of the interior rows only, and the function always
    returns. *)
Theorem check_uniqueness_in_rows_repeats (board : list str) :
  (check_uniqueness_in_rows board = Ok false
   ↔ exists cells, cells ∈ interior_cells board /\ repeats not_filler cells)
  /\ ((exists cells, cells ∈ interior_cells board /\ repeats height_digit cells) →
      check_uniqueness_in_rows board = Ok false)
  /\ (forall board', interior_cells board' = interior_cells board →
      check_uniqueness_in_rows board' = check_uniqueness_in_rows board)
  /\ returns (check_uniqueness_in_rows board).
Proof.
  split; [apply check_uniqueness_in_rows_false|]. split; [|split].
  - intros (cells & Hin & i & j & c & Hij & Hi & Hj & Hc).
    apply check_uniqueness_in_rows_false. exists cells. split; [done|].
    exists i, j, c. repeat split; try done.
    intros ->. unfold height_digit in Hc. vm_compute in Hc. lia.
  - intros board' H. rewrite !check_uniqueness_in_rows_distinct. now rewrite H.
  - rewrite check_uniqueness_in_rows_distinct. by eexists.
Qed.

Lemma check_uniqueness_in_rows_repeats_witness :
  check_uniqueness_in_rows
    [s "***21**"; s "452453*"; s "423145*"; s "*543215"; s "*35214*";
     s "*41532*"; s "*2*1***"] = Ok false.
Proof.
  apply (proj1 (proj2 (check_uniqueness_in_rows_repeats _))).
  exists (s "52453"). split; [left|].
  exists 0%nat, 3%nat, "5"%char.
  split; [lia|]. split; [reflexivity|]. split; [reflexivity|].
  unfold height_digit. vm_compute. lia.
Defined.

(** C5 as it was stated fails: two unknown markers in an interior row make
    the function return false although no height digit stands twice. *)
Lemma check_uniqueness_in_rows_unknown_twice :
  check_uniqueness_in_rows [s "****"; s "*??*"; s "*12*"; s "****"] = Ok false
  /\ ¬ (exists cells,
          cells ∈ interior_cells [s "****"; s "*??*"; s "*12*"; s "****"]
          /\ repeats height_digit cells).
Proof.
  split; [vm_compute; reflexivity|].
  intros (cells & Hin & i & j & c & Hij & Hi & Hj & Hc).
  change (interior_cells _) with [s "??"; s "12"] in Hin.
  unfold height_digit in Hc.
  apply elem_of_cons in Hin as [->|Hin];
    [|apply list_elem_of_singleton in Hin as ->];
    (destruct j as [|[|j]]; [lia| |vm_compute in Hj; discriminate]);
    (destruct i as [|[|i]]; [|lia..]);
    vm_compute in Hi, Hj; injection Hi as <-.
  - vm_compute in Hc. lia.
  - discriminate.
Qed.

(** C6: on a square board the column check is the row check of the
    transposed board, the board whose cell in row [j] and column [i] is the
    cell of the given board in row [i] and column [j]. *)
Theorem check_uniqueness_in_columns_transposed (board : list str) :
  square board →
  check_uniqueness_in_columns board = check_uniqueness_in_rows (transpose board)
  /\ (forall i j : nat,
        transpose board !! j ≫= (fun col => col !! i)
        = board !! i ≫= (fun row => row !! j)).
Proof.
  intros Hsq. split.
  { now apply check_uniqueness_in_columns_rows, square_rectangular. }
  destruct Hsq as [Hne Hall]. destruct board as [|row0 rest]; [done|].
  intros i j.
  assert (Hlen : forall row, row ∈ row0 :: rest → length row = length row0).
  { rewrite Forall_forall in Hall. intros row Hrow.
    rewrite (Hall row Hrow). symmetry. apply Hall. left. }
  destruct (decide (j < length row0)%nat) as [Hj|Hj].
  - rewrite (transpose_lookup _ _ _ Hj). cbn [mbind option_bind].
    apply column_cells_lookup, Forall_forall.
    intros row Hrow. now rewrite (Hlen row Hrow).
  - rewrite (lookup_ge_None_2 (transpose _)) by (rewrite transpose_length; lia).
    destruct ((row0 :: rest) !! i) as [row|] eqn:Hrow; [|done]. cbn.
    symmetry. apply lookup_ge_None_2.
    rewrite (Hlen row); [lia|]. apply list_elem_of_lookup. eauto.
Qed.

Lemma check_uniqueness_in_columns_transposed_witness :
  check_uniqueness_in_columns [s "***"; s "*1*"; s "***"]
  = check_uniqueness_in_rows (transpose [s "***"; s "*1*"; s "***"]).
Proof.
  apply (check_uniqueness_in_columns_transposed [s "***"; s "*1*"; s "***"]).
  split; [done|repeat constructor].
Defined.

(** ** read_input *)

(** C4, as the code has it: each element of the returned list is the
    corresponding raw line of the file without the whitespace at both of its
    ends, leading whitespace included; the raw lines are the text of the
    file, read with universal newlines, cut after each line feed. *)
Theorem read_input_strips_both_ends (fs : str → option str) (path file : str) :
  fs path = Some file →
  exists board,
    read_input fs path = Ok board
    /\ Forall2 stripped_of (readlines file) board
    /\ (forall (i : nat) raw line,
          readlines file !! i = Some raw → stripped_of raw line →
          board !! i = Some line)
    /\ concat (readlines file) = universal_newlines file.
Proof.
  intros Hfs. exists (map strip (readlines file)). unfold read_input.
  rewrite Hfs. split; [done|]. split; [|split].
  - apply Forall2_fmap_r, Forall_Forall2_diag, Forall_forall.
    intros raw _. apply strip_stripped_of.
  - intros i raw line Hraw Hline.
    change (map strip ?l) with (strip <$> l). rewrite list_lookup_fmap, Hraw.
    cbn. f_equal. apply (stripped_of_unique raw); [apply strip_stripped_of|done].
  - apply split_lines_concat.
Qed.

Lemma read_input_strips_both_ends_witness :
  exists board,
    read_input (fun _ => Some (s "*1 " ++ [LF] ++ s "**")) (s "check.txt") = Ok board
    /\ Forall2 stripped_of (readlines (s "*1 " ++ [LF] ++ s "**")) board
    /\ (forall (i : nat) raw line,
          readlines (s "*1 " ++ [LF] ++ s "**") !! i = Some raw →
          stripped_of raw line → board !! i = Some line)
    /\ concat (readlines (s "*1 " ++ [LF] ++ s "**"))
       = universal_newlines (s "*1 " ++ [LF] ++ s "**").
Proof.
  exact (read_input_strips_both_ends
           (fun _ => Some (s "*1 " ++ [LF] ++ s "**")) (s "check.txt")
           (s "*1 " ++ [LF] ++ s "**") eq_refl).
Defined.

(** C4 as it was stated fails: leading whitespace is removed too. *)
Lemma read_input_strips_leading :
  readlines (s " 1" ++ [LF]) = [s " 1" ++ [LF]]
  /\ map rstrip (readlines (s " 1" ++ [LF])) = [s " 1"]
  /\ read_input (fun _ => Some (s " 1" ++ [LF])) (s "check.txt") = Ok [s "1"].
Proof. split; [|split]; vm_compute; reflexivity. Qed.

(** ** check_skyscrapers *)

(** C1, as the code has it: with the board loaded from the path, a
    character repeated in an interior row gives false; when the column check
    returns, as it does on every board that is not empty and whose rows are
    equally long, an incomplete board and a board that is not unique give
    false; and on a complete and unique board both visibility checks are
    evaluated and the result is their conjunction. *)
Theorem check_skyscrapers_orchestrates (fs : str → option str)
    (path : str) (board : list str) :
  read_input fs path = Ok board →
  (check_uniqueness_in_rows board = Ok false → check_skyscrapers fs path = Ok false)
  /\ (forall unique_columns,
        check_uniqueness_in_columns board = Ok unique_columns →
        check_not_finished_board board = false \/ unique_columns = false →
        check_skyscrapers fs path = Ok false)
  /\ (check_not_finished_board board = true →
      check_uniqueness_in_rows board = Ok true →
      check_uniqueness_in_columns board = Ok true →
      check_skyscrapers fs path
      = (h ← check_horizontal_visibility board;
         v ← check_vertical_visibility board;
         Ok (h && v)))
  /\ (rectangular board → returns (check_uniqueness_in_columns board)).
Proof.
  intros Hread. unfold check_skyscrapers. rewrite Hread, bind_Ok. cbv zeta.
  split; [|split; [|split]].
  - intros ->. cbn. now rewrite andb_false_r.
  - intros uc Hcols Hfail. rewrite Hcols.
    rewrite check_uniqueness_in_rows_distinct, and_Ok, bind_Ok.
    destruct Hfail as [->| ->]; [done|].
    now rewrite !andb_false_r.
  - intros -> -> ->. done.
  - apply check_uniqueness_in_columns_returns.
Qed.

Lemma check_skyscrapers_orchestrates_witness :
  check_skyscrapers (holding check_txt) (s "docs/check.txt")
  = (h ← check_horizontal_visibility check_txt;
     v ← check_vertical_visibility check_txt;
     Ok (h && v)).
Proof.
  apply (check_skyscrapers_orchestrates (holding check_txt) (s "docs/check.txt")
           check_txt);
    vm_compute; reflexivity.
Defined.

(** C1 as it was stated fails: on an incomplete board with a short row the
    column check raises, so the function raises instead of returning
    false. *)
Lemma check_skyscrapers_short_row :
  read_input (holding [s "?**"; s "*"; s "***"]) (s "docs/check.txt")
  = Ok [s "?**"; s "*"; s "***"]
  /\ check_not_finished_board [s "?**"; s "*"; s "***"] = false
  /\ check_skyscrapers (holding [s "?**"; s "*"; s "***"]) (s "docs/check.txt")
     = Raise IndexError.
Proof. split; [|split]; vm_compute; reflexivity. Qed.

(** C9: on the board of the documentation the function returns true; with
    its second row changed to [452453*] the row check fails and the function
    returns false. *)
Theorem check_skyscrapers_scenarios (fs : str → option str) (path : str) :
  (read_input fs path = Ok check_txt → check_skyscrapers fs path = Ok true)
  /\ (read_input fs path = Ok (<[1%nat := s "452453*"]> check_txt) →
      check_uniqueness_in_rows (<[1%nat := s "452453*"]> check_txt) = Ok false
      /\ check_skyscrapers fs path = Ok false).
Proof.
  unfold check_skyscrapers. split.
  - intros ->. vm_compute. reflexivity.
  - intros ->. split; vm_compute; reflexivity.
Qed.

Lemma check_skyscrapers_scenarios_witness :
  check_skyscrapers (holding check_txt) (s "docs/check.txt") = Ok true
  /\ check_skyscrapers (holding (<[1%nat := s "452453*"]> check_txt))
       (s "docs/check.txt") = Ok false.
Proof.
  split.
  - apply (proj1 (check_skyscrapers_scenarios (holding check_txt)
                    (s "docs/check.txt"))).
    vm_compute. reflexivity.
  - apply (proj2 (check_skyscrapers_scenarios
                    (holding (<[1%nat := s "452453*"]> check_txt))
                    (s "docs/check.txt"))).
    vm_compute. reflexivity.
Defined.

(** C8: when the file holds a well-formed square board, the function
    returns a boolean and raises nothing, and the boolean is false exactly
    when one of the five checks fails, whichever it is. *)
Theorem check_skyscrapers_never_raises (fs : str → option str)
    (path : str) (board : list str) :
  read_input fs path = Ok board →
  well_formed board →
  exists valid : bool,
    check_skyscrapers fs path = Ok valid
    /\ (valid = false
        ↔ check_not_finished_board board = false
          \/ check_uniqueness_in_rows board = Ok false
          \/ check_uniqueness_in_columns board = Ok false
          \/ check_horizontal_visibility board = Ok false
          \/ check_vertical_visibility board = Ok false).
Proof.
  intros Hread Hwf. unfold check_skyscrapers. rewrite Hread, bind_Ok. cbv zeta.
  destruct (check_uniqueness_in_columns_returns board) as [uc Hcols].
  { apply square_rectangular, Hwf. }
  rewrite Hcols, check_uniqueness_in_rows_distinct, and_Ok, bind_Ok.
  destruct (check_not_finished_board board) eqn:Hfinished; cbn [andb negb];
    [|exists false; split; [done|]; split; [by left|done]].
  destruct (forallb _ _); cbn [andb negb];
    [|exists false; split; [done|]; split; [by right; left|done]].
  destruct uc; cbn [andb negb];
    [|exists false; split; [done|]; split; [by right; right; left|done]].
  destruct (check_horizontal_visibility_returns board Hwf Hfinished) as [h ->].
  destruct (check_vertical_visibility_returns board Hwf Hfinished) as [v ->].
  exists (h && v). split; [done|]. rewrite andb_false_iff. split.
  - intros [->| ->]; [right; right; right; by left|by do 4 right].
  - intros [H|[H|[H|[H|H]]]]; try discriminate H; injection H as ->; auto.
Qed.

Lemma check_skyscrapers_never_raises_witness :
  exists valid : bool,
    check_skyscrapers (holding [s "*1*"; s "11*"; s "***"]) (s "docs/check.txt")
    = Ok valid
    /\ (valid = false
        ↔ check_not_finished_board [s "*1*"; s "11*"; s "***"] = false
          \/ check_uniqueness_in_rows [s "*1*"; s "11*"; s "***"] = Ok false
          \/ check_uniqueness_in_columns [s "*1*"; s "11*"; s "***"] = Ok false
          \/ check_horizontal_visibility [s "*1*"; s "11*"; s "***"] = Ok false
          \/ check_vertical_visibility [s "*1*"; s "11*"; s "***"] = Ok false).
Proof.
  apply (check_skyscrapers_never_raises
           (holding [s "*1*"; s "11*"; s "***"]) (s "docs/check.txt")
           [s "*1*"; s "11*"; s "***"]); [reflexivity|].
  split; [split; [done|repeat constructor]|].
  intros i j row c Hrow Hc.
  destruct i as [|[|[|i]]]; vm_compute in Hrow; try discriminate;
    injection Hrow as <-;
    destruct j as [|[|[|j]]]; vm_compute in Hc; try discriminate;
    injection Hc as <-;
    case_decide as Hb; unfold on_border in Hb; cbn in Hb;
    first [ lia
          | by left
          | right; unfold height_digit; vm_compute; lia ].
Defined.

(** * Further properties *)

(** ** The visibility checks of a board *)

Lemma range_interior_bounds {A} (l : list A) :
  Forall2 (fun i a => 1 <= i < len l - 1 /\ index l i = Ok a)
          (range 1 (len l - 1)) (interior l).
Proof.
  apply Forall2_same_length_lookup_2.
  - eapply Forall2_length, range_interior.
  - intros k i a Hi Ha. split.
    + apply elem_of_range, list_elem_of_lookup. eauto.
    + eapply (Forall2_lookup_lr _ _ _ _ _ _ (range_interior l)); eauto.
Qed.

Lemma for_all_lines (body : Z → result bool) (idxs : list Z) (lines : list str) :
  Forall2 (fun i line => body i = check_visibility line) idxs lines →
  for_all body idxs = lines_visible lines.
Proof.
  induction 1 as [|i line idxs lines Hi _ IH]; [done|].
  cbn [for_all lines_visible]. rewrite Hi.
  destruct (check_visibility line) as [[]|]; [|reflexivity..].
  rewrite !bind_Ok. exact IH.
Qed.

Lemma check_horizontal_visibility_lines (board : list str) :
  check_horizontal_visibility board = lines_visible (interior board).
Proof.
  unfold check_horizontal_visibility. apply for_all_lines.
  eapply Forall2_impl; [apply range_interior|].
  intros i row Hi. cbn beta. now rewrite Hi.
Qed.

Lemma check_vertical_visibility_lines (board : list str) :
  rectangular board →
  check_vertical_visibility board = lines_visible (interior (transpose board)).
Proof.
  intros (row0 & Hhead & Hall). destruct board as [|row0' rest]; [done|].
  injection Hhead as ->. unfold check_vertical_visibility.
  rewrite index_first, bind_Ok.
  replace (len row0) with (len (transpose (row0 :: rest)))
    by (unfold len; now rewrite transpose_length).
  apply for_all_lines.
  eapply Forall2_impl; [apply range_interior_bounds|].
  intros j col [Hj Hcol]. cbn beta.
  unfold len in Hj. rewrite transpose_length in Hj.
  assert (Hjn : (Z.to_nat j < length row0)%nat) by lia.
  rewrite index_nonneg, (transpose_lookup _ _ _ Hjn) in Hcol by lia.
  injection Hcol as <-.
  replace j with (Z.of_nat (Z.to_nat j)) at 1 by lia.
  rewrite column_Forall2; [done|].
  eapply Forall_impl; [exact Hall|]. intros row Hrow. cbn beta in *. lia.
Qed.

Lemma lines_visible_true (lines : list str) :
  lines_visible lines = Ok true
  ↔ forall line, line ∈ lines → check_visibility line = Ok true.
Proof.
  induction lines as [|line lines IH]; cbn [lines_visible].
  - split; [|done]. intros _ line H. inversion H.
  - destruct (check_visibility line) as [[]|e] eqn:E;
      [rewrite bind_Ok; cbn [negb]|..].
    + rewrite IH. split.
      * intros H x Hx. apply elem_of_cons in Hx as [->|Hx]; auto.
      * intros H x Hx. apply H. now right.
    + split; [done|]. intros H. specialize (H line). rewrite E in H.
      discriminate H. left.
    + split; [done|]. intros H. specialize (H line). rewrite E in H.
      discriminate H. left.
Qed.

(** X1: on a board that is not empty and whose rows are equally long, the
    vertical check is the horizontal check of the transposed board. *)
Theorem check_vertical_visibility_transposed (board : list str) :
  rectangular board →
  check_vertical_visibility board
  = check_horizontal_visibility (transpose board).
Proof.
  intros H. now rewrite check_horizontal_visibility_lines,
    check_vertical_visibility_lines.
Qed.

Lemma check_vertical_visibility_transposed_witness :
  check_vertical_visibility check_txt
  = check_horizontal_visibility (transpose check_txt).
Proof.
  apply check_vertical_visibility_transposed.
  exists (s "***21**"). split; [reflexivity|repeat constructor].
Defined.

(** X2: the horizontal check returns true exactly when [check_visibility]
    returns true on every row between the first and the last one; the two
    border rows never matter. *)
Theorem check_horizontal_visibility_interior_rows (board : list str) :
  (check_horizontal_visibility board = Ok true
   ↔ forall row, row ∈ interior board → check_visibility row = Ok true)
  /\ (forall board', interior board' = interior board →
      check_horizontal_visibility board' = check_horizontal_visibility board).
Proof.
  split.
  - rewrite check_horizontal_visibility_lines. apply lines_visible_true.
  - intros board' H. rewrite !check_horizontal_visibility_lines. now rewrite H.
Qed.

(** ** The count of visible buildings *)

Lemma visible_from_bounds (heights : list Z) : forall curr_max,
  0 <= visible_from curr_max heights <= len heights.
Proof.
  induction heights as [|h rest IH]; intros curr_max; [done|].
  cbn [visible_from]. rewrite len_cons.
  destruct (gt h curr_max);
    [specialize (IH (Int h)) | specialize (IH curr_max)]; lia.
Qed.

Lemma visible_count_positive (heights : list Z) :
  heights ≠ [] → 1 <= visible_count heights <= len heights.
Proof.
  intros Hne. destruct heights as [|h rest]; [done|].
  unfold visible_count. cbn [visible_from gt]. rewrite len_cons.
  pose proof (visible_from_bounds rest (Int h)). lia.
Qed.

Lemma visible_from_all (heights : list Z) : forall curr_max,
  visible_from curr_max heights = len heights →
  Sorted Z.lt heights
  /\ (forall h, head heights = Some h → gt h curr_max = true).
Proof.
  induction heights as [|h rest IH]; intros curr_max Hall.
  { split; [constructor|done]. }
  cbn [visible_from] in Hall. rewrite len_cons in Hall.
  destruct (gt h curr_max) eqn:Hgt.
  - destruct (IH (Int h)) as [Hsorted Hhead]; [lia|].
    split; [|now intros h' [= <-]].
    constructor; [done|]. destruct rest as [|h' rest']; constructor.
    specialize (Hhead h' eq_refl). cbn in Hhead. lia.
  - pose proof (visible_from_bounds rest curr_max). lia.
Qed.

Lemma visible_count_all (heights : list Z) :
  visible_count heights = len heights ↔ Sorted Z.lt heights.
Proof.
  split; [|apply visible_count_increasing].
  intros H. now apply (visible_from_all heights NegInf).
Qed.

Lemma visible_from_none (h : Z) (rest : list Z) :
  visible_from (Int h) rest = 0 ↔ Forall (fun x => x <= h) rest.
Proof.
  induction rest as [|x rest IH]; cbn [visible_from gt].
  - split; [constructor|done].
  - rewrite Forall_cons. destruct (Z.ltb_spec h x) as [Hlt|Hge].
    + pose proof (visible_from_bounds rest (Int x)). split; [lia|].
      intros [Hx _]. lia.
    + rewrite IH. split; [now split|now intros [_ ?]].
Qed.

Lemma Forall_rev_list {A} (P : A → Prop) (l : list A) :
  Forall P (rev l) ↔ Forall P l.
Proof.
  rewrite !Forall_forall. split; intros H x Hx; apply H;
    apply list_elem_of_In; apply list_elem_of_In in Hx;
    [now apply in_rev in Hx | now apply in_rev].
Qed.

(** X3: the count of a side is the number K of interior heights exactly
    when the heights increase strictly as read from that side. *)
Theorem all_visible_iff_increasing (heights : list Z) :
  (while_left heights 0 0 NegInf = Ok (len heights) ↔ Sorted Z.lt heights)
  /\ (while_right heights (len heights - 1) 0 NegInf = Ok (len heights)
      ↔ Sorted Z.lt (rev heights)).
Proof.
  rewrite while_left_count, while_right_count. split.
  - rewrite <- visible_count_all. split; [now intros [= ->]|now intros ->].
  - rewrite <- visible_count_all.
    replace (len (rev heights)) with (len heights)
      by (unfold len; now rewrite length_rev).
    split; [now intros [= ->]|now intros ->].
Qed.

(** X4: the count of a side is 1 exactly when no building is higher than
    the one nearest to that side. *)
Theorem one_visible_iff_nearest_highest (h : Z) (rest : list Z) :
  (while_left (h :: rest) 0 0 NegInf = Ok 1 ↔ Forall (fun x => x <= h) rest)
  /\ (while_right (rest ++ [h]) (len (rest ++ [h]) - 1) 0 NegInf = Ok 1
      ↔ Forall (fun x => x <= h) rest).
Proof.
  rewrite while_left_count, while_right_count, rev_app_distr.
  unfold visible_count. cbn [rev app visible_from gt].
  split.
  - rewrite <- visible_from_none. split; [intros [= H]|intros H]; [lia|].
    f_equal. lia.
  - rewrite <- (Forall_rev_list _ rest).
    rewrite <- visible_from_none. split; [intros [= H]|intros H]; [lia|].
    f_equal. lia.
Qed.

(** X5: on a line with at least one interior height, each loop counts at
    least one building and at most as many as there are; so a hint that is 0
    or greater than the number of interior cells makes the line invalid. *)
Theorem hint_out_of_range_rejected (l r : ascii) (interior : str)
    (heights : list Z) (bl br : border) :
  mapM int interior = Ok heights →
  interior ≠ [] →
  border_of l = Some bl →
  border_of r = Some br →
  (exists count, while_left heights 0 0 NegInf = Ok count
                 /\ 1 <= count <= len heights)
  /\ (exists count, while_right heights (len heights - 1) 0 NegInf = Ok count
                    /\ 1 <= count <= len heights)
  /\ (forall h, bl = Hint h \/ br = Hint h →
                h < 1 \/ len heights < h →
                check_visibility (l :: interior ++ [r]) = Ok false).
Proof.
  intros Hh Hne Hl Hr.
  assert (Hhs : heights ≠ []).
  { intros ->. destruct interior as [|c rest]; [done|].
    cbn in Hh. destruct (int c); cbn in Hh; [|done].
    destruct (mapM int rest); cbn in Hh; done. }
  assert (Hrev : rev heights ≠ []).
  { intros H. apply Hhs. apply (f_equal (@rev Z)) in H.
    now rewrite rev_involutive in H. }
  pose proof (visible_count_positive _ Hhs) as Hleft.
  pose proof (visible_count_positive _ Hrev) as Hright.
  replace (len (rev heights)) with (len heights) in Hright
    by (unfold len; now rewrite length_rev).
  split; [rewrite while_left_count; eauto|].
  split; [rewrite while_right_count; eauto|].
  intros h Hside Hout.
  rewrite (check_visibility_sides l r interior heights bl br Hh Hl Hr).
  f_equal. apply andb_false_iff.
  destruct Hside as [-> | ->]; [left|right]; cbn; apply bool_decide_eq_false; lia.
Qed.

Lemma hint_out_of_range_rejected_witness :
  check_visibility (s "6123450") = Ok false.
Proof.
  apply (hint_out_of_range_rejected "6" "0" (s "12345") [1; 2; 3; 4; 5]
           (Hint 6) (Hint 0) eq_refl ltac:(done) eq_refl eq_refl) with (h := 6).
  - now left.
  - right. vm_compute. reflexivity.
Defined.

(** ** Reading a line from the other end *)

Lemma mapM_int_snoc (cells : str) (c : ascii) (heights : list Z) (h : Z) :
  mapM int cells = Ok heights → int c = Ok h →
  mapM int (cells ++ [c]) = Ok (heights ++ [h]).
Proof.
  revert heights. induction cells as [|c' cells IH]; intros heights Hcells Hc.
  - injection Hcells as <-. cbn. now rewrite Hc.
  - cbn in *. destruct (int c') as [h'|]; [|done]. cbn in *.
    destruct (mapM int cells) as [hs|] eqn:E; [|done]. cbn in Hcells.
    injection Hcells as <-. now rewrite (IH hs eq_refl Hc).
Qed.

Lemma mapM_int_rev (cells : str) : forall heights,
  mapM int cells = Ok heights → mapM int (rev cells) = Ok (rev heights).
Proof.
  induction cells as [|c cells IH]; intros heights H.
  - now injection H as <-.
  - cbn in H. destruct (int c) as [h|] eqn:Hc; [|done]. cbn in H.
    destruct (mapM int cells) as [hs|] eqn:E; [|done]. cbn in H.
    injection H as <-. cbn [rev]. now apply mapM_int_snoc; [apply IH|].
Qed.

(** X6: a line whose interior cells are digits and whose border cells are
    hints or fillers is valid exactly when the line read backwards is. *)
Theorem check_visibility_mirror (l r : ascii) (interior : str)
    (heights : list Z) (bl br : border) :
  mapM int interior = Ok heights →
  border_of l = Some bl →
  border_of r = Some br →
  check_visibility (rev (l :: interior ++ [r]))
  = check_visibility (l :: interior ++ [r]).
Proof.
  intros Hh Hl Hr.
  rewrite (check_visibility_sides l r interior heights bl br Hh Hl Hr).
  replace (rev (l :: interior ++ [r])) with (r :: rev interior ++ [l])
    by (cbn [rev]; now rewrite rev_app_distr).
  rewrite (check_visibility_sides r l (rev interior) (rev heights) br bl
             (mapM_int_rev _ _ Hh) Hr Hl).
  now rewrite rev_involutive, andb_comm.
Qed.

Lemma check_visibility_mirror_witness :
  check_visibility (rev (s "4123542")) = check_visibility (s "4123542").
Proof.
  exact (check_visibility_mirror "4" "2" (s "12354") [1; 2; 3; 5; 4]
           (Hint 4) (Hint 2) eq_refl eq_refl eq_refl).
Defined.

(** ** The exceptions of check_visibility *)

Lemma check_visibility_nonempty_raise (line : str) (e : exn) :
  line ≠ [] → check_visibility line = Raise e → e = ValueError.
Proof.
  intros Hne H. unfold check_visibility in H.
  destruct (decide (Forall (fun c => is_digit c = true) (slice line 1 (-1))))
    as [Hd|Hd].
  2:{ rewrite (mapM_int_not_digits _ Hd) in H. now injection H as <-. }
  destruct (mapM_int_digits _ Hd) as [hs Hhs]. rewrite Hhs, bind_Ok in H.
  destruct line as [|c rest]; [done|].
  destruct (border_of c) as [b|] eqn:Hb.
  2:{ rewrite (check_left_junk _ _ _ Hb) in H. now injection H as <-. }
  rewrite (check_left_border _ _ _ _ Hb), bind_Ok in H.
  destruct (side_accepts b hs); [|done]. cbn [negb] in H.
  destruct (rev rest) as [|c' rest'] eqn:Hrest.
  - apply (f_equal (@rev ascii)) in Hrest. rewrite rev_involutive in Hrest.
    subst rest. pose proof (check_right_border [] c hs b Hb) as Hright.
    cbn [app rev] in Hright, H. rewrite Hright, bind_Ok in H.
    now destruct (side_accepts b (rev hs)).
  - apply (f_equal (@rev ascii)) in Hrest. rewrite rev_involutive in Hrest.
    subst rest. change (c :: rev (c' :: rest')) with ((c :: rev rest') ++ [c']) in H.
    destruct (border_of c') as [b'|] eqn:Hb'.
    + rewrite (check_right_border _ _ _ _ Hb'), bind_Ok in H.
      now destruct (side_accepts b' (rev hs)).
    + rewrite (check_right_junk _ _ _ Hb') in H. now injection H as <-.
Qed.

(** X7: [check_visibility] raises [IndexError] on the empty line and on no
    other; on every other line the only exception is the [ValueError] of a
    cell that is not a digit. *)
Theorem check_visibility_exceptions (line : str) :
  (check_visibility line = Raise IndexError ↔ line = [])
  /\ (forall e, check_visibility line = Raise e →
                e = IndexError \/ e = ValueError)
  /\ (check_visibility line = Raise ValueError →
      exists c, c ∈ line /\ is_digit c = false).
Proof.
  split; [|split].
  - split; [|now intros ->].
    intros H. destruct (decide (line = [])) as [|Hne]; [done|].
    now apply check_visibility_nonempty_raise in H.
  - intros e H. destruct (decide (line = [])) as [->|Hne].
    + left. now injection H as <-.
    + right. now apply (check_visibility_nonempty_raise line).
  - intros H. unfold check_visibility in H.
    destruct (decide (Forall (fun c => is_digit c = true) (slice line 1 (-1))))
      as [Hd|Hd].
    + destruct (mapM_int_digits _ Hd) as [hs Hhs]. rewrite Hhs, bind_Ok in H.
      destruct line as [|c rest]; [done|].
      destruct (border_of c) as [b|] eqn:Hb.
      * rewrite (check_left_border _ _ _ _ Hb), bind_Ok in H.
        destruct (side_accepts b hs); [|done]. cbn [negb] in H.
        destruct (rev rest) as [|c' rest'] eqn:Hrest;
          apply (f_equal (@rev ascii)) in Hrest;
          rewrite rev_involutive in Hrest; subst rest.
        -- pose proof (check_right_border [] c hs b Hb) as Hright.
           cbn [app rev] in Hright, H. rewrite Hright, bind_Ok in H.
           now destruct (side_accepts b (rev hs)).
        -- change (c :: rev (c' :: rest')) with ((c :: rev rest') ++ [c']) in H.
           destruct (border_of c') as [b'|] eqn:Hb'.
           ++ rewrite (check_right_border _ _ _ _ Hb'), bind_Ok in H.
              now destruct (side_accepts b' (rev hs)).
           ++ exists c'. split.
              ** right. apply elem_of_app. right. left.
              ** apply border_of_None in Hb' as [_ Hb'].
                 destruct (is_digit c') eqn:E; [|done].
                 destruct (int_digit _ E) as (h & Hh & _). congruence.
      * exists c. split; [left|]. apply border_of_None in Hb as [_ Hb].
        destruct (is_digit c) eqn:E; [|done].
        destruct (int_digit _ E) as (h & Hh & _). congruence.
    + apply not_Forall_Exists in Hd; [|intros c; apply _].
      apply Exists_exists in Hd as (c & Hc & Hnd).
      exists c. split; [now apply (interior_subseteq line)|].
      unfold compose in Hnd. destruct (is_digit c); [by destruct Hnd|done].
Qed.

(** ** Where exceptions come from *)






Lemma lines_visible_raise (lines : list str) (e : exn) :
  lines_visible lines = Raise e →
  exists line, line ∈ lines /\ check_visibility line = Raise e.
Proof.
  induction lines as [|line lines IH]; [done|]. cbn [lines_visible].
  destruct (check_visibility line) as [[]|e'] eqn:E.
  - rewrite bind_Ok. cbn [negb]. intros H.
    destruct (IH H) as (l & Hl & Hcheck). exists l. split; [now right|done].
  - done.
  - intros [= <-]. exists line. split; [left|done].
Qed.






(** ** What check_skyscrapers accepts *)

(** [check_skyscrapers] returns true exactly when the file is read and each
    of the five checks returns true on its board. *)
Lemma check_skyscrapers_true_iff (fs : str → option str) (path : str) :
  check_skyscrapers fs path = Ok true
  ↔ exists board,
      read_input fs path = Ok board
      /\ check_not_finished_board board = true
      /\ check_uniqueness_in_rows board = Ok true
      /\ check_uniqueness_in_columns board = Ok true
      /\ check_horizontal_visibility board = Ok true
      /\ check_vertical_visibility board = Ok true.
Proof.
  unfold check_skyscrapers. split.
  - destruct (read_input fs path) as [board|] eqn:Hread; [|done].
    rewrite bind_Ok. cbv beta zeta. unfold and_. intros H. exists board.
    split; [done|]. revert H.
    destruct (check_not_finished_board board).
    all: destruct (check_uniqueness_in_rows board) as [[]|].
    all: destruct (check_uniqueness_in_columns board) as [[]|].
    all: destruct (check_horizontal_visibility board) as [[]|].
    all: destruct (check_vertical_visibility board) as [[]|].
    all: cbn; intros H; try discriminate H.
    done.
  - intros (board & Hread & Hf & Hr & Hc & Hh & Hv).
    rewrite Hread, bind_Ok. cbv beta zeta. now rewrite Hf, Hr, Hc, Hh, Hv.
Qed.

Lemma check_visibility_true_digits (line : str) :
  check_visibility line = Ok true →
  Forall (fun c => is_digit c = true) (interior line).
Proof.
  intros H.
  destruct (decide (Forall (fun c => is_digit c = true) (interior line)))
    as [Hd|Hd]; [done|].
  rewrite (check_visibility_not_digits line Hd) in H. done.
Qed.

(** X9: when [check_skyscrapers] returns true, no cell of the board read
    holds the unknown marker, and the interior cells of every interior row
    are decimal digits that differ from one another. *)
Theorem check_skyscrapers_true_rows (fs : str → option str) (path : str) :
  check_skyscrapers fs path = Ok true →
  exists board,
    read_input fs path = Ok board
    /\ (forall row, row ∈ board → "?"%char ∉ row)
    /\ (forall cells, cells ∈ interior_cells board →
          Forall (fun c => is_digit c = true) cells /\ NoDup cells).
Proof.
  intros H. apply check_skyscrapers_true_iff in H
    as (board & Hread & Hfin & Hrows & _ & Hh & _).
  exists board. split; [done|]. split.
  { now apply check_not_finished_board_true. }
  intros cells Hcells.
  assert (Hdigits : Forall (fun c => is_digit c = true) cells).
  { unfold interior_cells in Hcells.
    apply list_elem_of_fmap in Hcells as (row & -> & Hrow).
    apply check_visibility_true_digits.
    rewrite check_horizontal_visibility_lines in Hh.
    now apply (proj1 (lines_visible_true _) Hh). }
  split; [done|].
  rewrite check_uniqueness_in_rows_distinct in Hrows. injection Hrows as Hrows.
  rewrite forallb_forall in Hrows.
  specialize (Hrows cells (proj1 (list_elem_of_In _ _) Hcells)).
  apply bool_decide_eq_true in Hrows. unfold distinct in Hrows.
  replace (filter not_filler cells) with cells in Hrows; [done|].
  clear Hrows Hcells. induction Hdigits as [|c cells Hc _ IH]; [done|].
  rewrite filter_cons_True; [now f_equal|].
  intros ->. discriminate Hc.
Qed.

Lemma check_skyscrapers_true_rows_witness :
  exists board,
    read_input (holding check_txt) (s "docs/check.txt") = Ok board
    /\ (forall row, row ∈ board → "?"%char ∉ row)
    /\ (forall cells, cells ∈ interior_cells board →
          Forall (fun c => is_digit c = true) cells /\ NoDup cells).
Proof.
  apply (check_skyscrapers_true_rows (holding check_txt) (s "docs/check.txt")).
  vm_compute. reflexivity.
Defined.

(** ** Boards of odd shapes *)

Lemma elem_of_transpose (row0 : str) (rest : list str) (line : str) :
  line ∈ transpose (row0 :: rest) →
  exists j, (j < length row0)%nat /\ line = column_cells (row0 :: rest) j.
Proof.
  unfold transpose. intros H. apply list_elem_of_fmap in H as (j & -> & Hj).
  exists j. split; [|done]. apply list_elem_of_In, in_seq in Hj. lia.
Qed.

(** X10: on a board that is not empty, whose rows are equally long and
    not empty, [check_skyscrapers] raises no [IndexError]: the only
    exception left is the [ValueError] of a cell that is not a digit. *)
Theorem check_skyscrapers_rectangular_exceptions (fs : str → option str)
    (path : str) (board : list str) (e : exn) :
  read_input fs path = Ok board →
  rectangular board →
  Forall (fun row => row ≠ []) board →
  check_skyscrapers fs path = Raise e →
  e = ValueError.
Proof.
  intros Hread Hrect Hrows. unfold check_skyscrapers.
  rewrite Hread, bind_Ok. cbv beta zeta.
  destruct (check_uniqueness_in_columns_returns board Hrect) as [uc ->].
  rewrite check_uniqueness_in_rows_distinct, and_Ok, bind_Ok.
  destruct (negb _); [done|].
  destruct (check_horizontal_visibility board) as [h|e'] eqn:Hh.
  - rewrite bind_Ok.
    destruct (check_vertical_visibility board) as [v|e'] eqn:Hv; [done|].
    intros [= <-]. rewrite (check_vertical_visibility_lines _ Hrect) in Hv.
    apply lines_visible_raise in Hv as (line & Hline & Hv).
    apply (check_visibility_nonempty_raise line); [|done].
    apply interior_subseteq in Hline.
    destruct Hrect as (row0 & Hhead & Hall).
    destruct board as [|row0' rest]; [done|]. injection Hhead as ->.
    apply elem_of_transpose in Hline as (j & Hj & ->).
    intros Hnil. apply (f_equal length) in Hnil.
    rewrite column_cells_length in Hnil; [done|].
    eapply Forall_impl; [exact Hall|]. intros row Hrow. cbn beta in *. lia.
  - intros [= <-]. rewrite check_horizontal_visibility_lines in Hh.
    apply lines_visible_raise in Hh as (line & Hline & Hh).
    apply (check_visibility_nonempty_raise line); [|done].
    apply interior_subseteq in Hline. rewrite Forall_forall in Hrows. auto.
Qed.

Lemma check_skyscrapers_rectangular_exceptions_witness :
  check_skyscrapers (holding [s "***"; s "*x*"; s "***"]) (s "docs/check.txt")
  = Raise ValueError
  /\ ValueError = ValueError.
Proof.
  split; [vm_compute; reflexivity|].
  apply (check_skyscrapers_rectangular_exceptions
           (holding [s "***"; s "*x*"; s "***"]) (s "docs/check.txt")
           [s "***"; s "*x*"; s "***"] ValueError).
  - vm_compute. reflexivity.
  - exists (s "***"). split; [reflexivity|repeat constructor].
  - repeat constructor; done.
  - vm_compute. reflexivity.
Defined.

(** A board that is not empty, whose rows are equally long and that holds
    the unknown marker in any cell makes [check_skyscrapers] return false. *)
Lemma check_skyscrapers_unfinished (fs : str → option str)
    (path : str) (board : list str) (row : str) :
  read_input fs path = Ok board →
  rectangular board →
  row ∈ board → "?"%char ∈ row →
  check_skyscrapers fs path = Ok false.
Proof.
  intros Hread Hrect Hrow Hq. unfold check_skyscrapers.
  rewrite Hread, bind_Ok. cbv beta zeta.
  destruct (check_uniqueness_in_columns_returns board Hrect) as [uc ->].
  rewrite check_uniqueness_in_rows_distinct, and_Ok, bind_Ok.
  replace (check_not_finished_board board) with false; [done|].
  symmetry. apply not_true_is_false. rewrite check_not_finished_board_true.
  intros H. now apply (H row).
Qed.

(** X11: a board of one or two rows whose first row has at most two cells
    has nothing between its borders: when it holds no unknown marker,
    [check_skyscrapers] returns true whatever its cells are. *)
Theorem check_skyscrapers_no_interior (fs : str → option str)
    (path : str) (row0 : str) (rest : list str) :
  read_input fs path = Ok (row0 :: rest) →
  len row0 <= 2 → len rest <= 1 →
  check_not_finished_board (row0 :: rest) = true →
  check_skyscrapers fs path = Ok true.
Proof.
  intros Hread H0 Hrest Hfin. apply check_skyscrapers_true_iff.
  exists (row0 :: rest). split; [done|]. split; [done|].
  assert (Hrows : range 1 (len (row0 :: rest) - 1) = []).
  { apply range_empty. rewrite len_cons. lia. }
  assert (Hcols : range 1 (len row0 - 1) = []) by (apply range_empty; lia).
  unfold check_uniqueness_in_rows, check_uniqueness_in_columns,
    check_horizontal_visibility, check_vertical_visibility.
  now rewrite index_first, !bind_Ok, Hrows, Hcols.
Qed.

Lemma check_skyscrapers_no_interior_witness :
  check_skyscrapers (holding [s "12"; s "34"]) (s "docs/check.txt") = Ok true.
Proof.
  apply (check_skyscrapers_no_interior (holding [s "12"; s "34"])
           (s "docs/check.txt") (s "12") [s "34"]);
    vm_compute; solve [reflexivity | discriminate].
Defined.

(** X12: the column checks index every row by the columns of the first
    one.  When the first row has three cells or more and the second row has
    one cell at most, the vertical check raises [IndexError], and so does
    the column uniqueness check when there is a third row; both raise it on
    the empty board, which has no first row. *)
Theorem column_checks_short_row (row0 row1 : str) (rest : list str) :
  3 <= len row0 → len row1 <= 1 →
  check_vertical_visibility (row0 :: row1 :: rest) = Raise IndexError
  /\ (rest ≠ [] →
      check_uniqueness_in_columns (row0 :: row1 :: rest) = Raise IndexError)
  /\ check_vertical_visibility [] = Raise IndexError
  /\ check_uniqueness_in_columns [] = Raise IndexError.
Proof.
  intros H0 H1.
  assert (Hcell0 : exists c, cell_at (row0 :: row1 :: rest) 0 1 = Ok c).
  { unfold cell_at. rewrite index_first, bind_Ok.
    destruct (index_in_range row0 1) as (c & _ & ->); [lia|]. eauto. }
  assert (Hcell1 : cell_at (row0 :: row1 :: rest) 1 1 = Raise IndexError).
  { unfold cell_at. change (index (row0 :: row1 :: rest) 1) with (Ok row1).
    rewrite bind_Ok. now apply index_out_of_range. }
  split; [|split; [|split; reflexivity]].
  - unfold check_vertical_visibility. rewrite index_first, bind_Ok.
    rewrite (range_cons 1 (len row0 - 1)) by lia. cbn [for_all]. unfold column.
    rewrite (range_cons 0) by (rewrite !len_cons; pose proof (len_nonneg rest); lia).
    rewrite (range_cons (0 + 1))
      by (rewrite !len_cons; pose proof (len_nonneg rest); lia).
    destruct Hcell0 as [c Hcell0]. cbn [mapM]. change (0 + 1) with 1.
    now rewrite Hcell0, Hcell1.
  - intros Hne. unfold check_uniqueness_in_columns.
    rewrite index_first, bind_Ok. rewrite (range_cons 1 (len row0 - 1)) by lia.
    cbn [for_all].
    rewrite (range_cons 1 (len (row0 :: row1 :: rest) - 1)).
    + cbn [unique_cells]. now rewrite Hcell1.
    + rewrite !len_cons. destruct rest; [done|]. rewrite len_cons.
      pose proof (len_nonneg rest). lia.
Qed.

Lemma column_checks_short_row_witness :
  check_vertical_visibility [s "?**"; s "*"; s "***"] = Raise IndexError.
Proof.
  apply (column_checks_short_row (s "?**") (s "*") [s "***"]);
    vm_compute; discriminate.
Defined.

(** ** Files written one row per line *)

Lemma universal_newlines_row (row rest : str) :
  CR ∉ row → rest ≠ [] →
  universal_newlines (row ++ rest) = row ++ universal_newlines rest.
Proof.
  intros Hrow Hrest. induction row as [|c row IH]; [done|].
  apply not_elem_of_cons in Hrow as [Hc Hrow].
  cbn [app universal_newlines]. rewrite decide_False by done.
  now rewrite IH.
Qed.

Lemma universal_newlines_text (eol : str) (rows : list str) :
  eol = [LF] \/ eol = [CR; LF] →
  Forall clean_row rows →
  universal_newlines (text_of eol rows) = text_of [LF] rows.
Proof.
  intros Heol. induction 1 as [|row rows (_ & Hcr & _) _ IH]; [done|].
  unfold text_of in *. cbn [map concat]. rewrite <- !app_assoc.
  rewrite universal_newlines_row;
    [|done|destruct Heol as [-> | ->]; discriminate].
  f_equal. destruct Heol as [-> | ->]; cbn [app universal_newlines].
  - rewrite decide_False by done. now rewrite IH.
  - rewrite decide_True by done. rewrite decide_True by done. now rewrite IH.
Qed.

Lemma split_lines_row (row rest : str) :
  LF ∉ row → split_lines (row ++ LF :: rest) = (row ++ [LF]) :: split_lines rest.
Proof.
  intros Hrow. induction row as [|c row IH].
  - cbn [app split_lines]. now rewrite decide_True.
  - apply not_elem_of_cons in Hrow as [Hc Hrow].
    cbn [app split_lines]. rewrite decide_False by done. now rewrite IH.
Qed.

Lemma split_lines_text (rows : list str) :
  Forall clean_row rows →
  split_lines (text_of [LF] rows) = map (fun row => row ++ [LF]) rows.
Proof.
  induction 1 as [|row rows (Hlf & _) _ IH]; [done|].
  unfold text_of in *. cbn [map concat]. rewrite <- app_assoc. cbn [app].
  now rewrite split_lines_row, IH.
Qed.

Lemma strip_clean_row (row : str) : clean_row row → strip (row ++ [LF]) = row.
Proof.
  intros (_ & _ & Hhead & Hlast).
  apply (stripped_of_unique (row ++ [LF])); [apply strip_stripped_of|].
  exists [], [LF]. repeat split; try done; repeat constructor.
Qed.

Lemma readlines_text_of (eol : str) (rows : list str) :
  eol = [LF] \/ eol = [CR; LF] →
  Forall clean_row rows →
  map strip (readlines (text_of eol rows)) = rows.
Proof.
  intros Heol Hrows. unfold readlines.
  rewrite (universal_newlines_text _ _ Heol Hrows), (split_lines_text _ Hrows).
  rewrite map_map. induction Hrows as [|row rows Hrow _ IH]; [done|].
  cbn [map]. now rewrite (strip_clean_row _ Hrow), IH.
Qed.

(** X13: a file that holds rows one per line, with Unix or Windows line
    endings, is read back as these rows, empty rows included, provided no
    row holds a line break or begins or ends with whitespace. *)
Theorem read_input_text_of (fs : str → option str) (path eol : str)
    (rows : list str) :
  eol = [LF] \/ eol = [CR; LF] →
  Forall clean_row rows →
  fs path = Some (text_of eol rows) →
  read_input fs path = Ok rows.
Proof.
  intros Heol Hrows Hfs. unfold read_input. rewrite Hfs. cbv zeta.
  now rewrite readlines_text_of.
Qed.

Lemma read_input_text_of_witness :
  read_input (fun _ => Some (text_of [CR; LF] [s "*1*"; []; s "2 3"]))
    (s "docs/check.txt") = Ok [s "*1*"; []; s "2 3"].
Proof.
  apply (read_input_text_of _ (s "docs/check.txt") [CR; LF]
           [s "*1*"; []; s "2 3"]); [now right| |reflexivity].
  repeat constructor; try (intros H; vm_compute in H;
    repeat (apply elem_of_cons in H as [H|H]; [discriminate H|]);
    by apply elem_of_nil in H);
  intros c [= <-]; reflexivity.
Defined.

(** ** The rows that read_input returns *)

Lemma universal_newlines_no_CR (n : nat) : forall text,
  (length text <= n)%nat → CR ∉ universal_newlines text.
Proof.
  induction n as [|n IH]; intros text Hn.
  { destruct text; [|cbn in Hn; lia]. apply not_elem_of_nil. }
  destruct text as [|c rest]; [apply not_elem_of_nil|].
  cbn in Hn. cbn [universal_newlines]. case_decide as Hc.
  - destruct rest as [|c' rest'].
    + apply not_elem_of_cons. split; [done|apply not_elem_of_nil].
    + cbn in Hn. case_decide; apply not_elem_of_cons; (split; [done|]);
        apply IH; cbn; lia.
  - apply not_elem_of_cons. split; [congruence|]. apply IH. lia.
Qed.

Lemma split_lines_shape (text : str) :
  Forall (fun raw => exists body,
            (LF ∉ body) /\ (raw = body ++ [LF] \/ raw = body))
         (split_lines text).
Proof.
  induction text as [|c rest IH]; [constructor|].
  cbn [split_lines]. case_decide as Hc.
  - subst c. constructor; [|done]. exists []. split; [apply not_elem_of_nil|now left].
  - destruct (split_lines rest) as [|line lines].
    + constructor; [|constructor]. exists [c]. split; [|now right].
      apply not_elem_of_cons. split; [congruence|apply not_elem_of_nil].
    + apply Forall_cons in IH as [(body & Hbody & Hline) IH].
      constructor; [|done]. exists (c :: body). split.
      * apply not_elem_of_cons. split; [congruence|done].
      * destruct Hline as [-> | ->]; [now left|now right].
Qed.

Lemma stripped_of_no_LF (raw line body : str) :
  stripped_of raw line → LF ∉ body → raw = body ++ [LF] \/ raw = body →
  LF ∉ line.
Proof.
  intros (pre & post & Heq & _ & _ & _ & Hlast) Hbody Hraw Hin.
  destruct line as [|x line' _] using rev_ind; [by apply elem_of_nil in Hin|].
  assert (Hx : isspace x = false) by (apply Hlast, last_snoc).
  apply elem_of_app in Hin as [Hin|Hin].
  2:{ apply list_elem_of_singleton in Hin. subst x. discriminate Hx. }
  apply Hbody. destruct Hraw as [-> | ->].
  - destruct post as [|y post' _] using rev_ind.
    + rewrite app_nil_r, app_assoc in Heq.
      apply app_inj_tail in Heq as [_ <-]. discriminate Hx.
    + rewrite !app_assoc in Heq. apply app_inj_tail in Heq as [-> _].
      rewrite !elem_of_app. auto.
  - rewrite Heq, !elem_of_app. auto.
Qed.

Lemma strip_clean (file raw : str) :
  raw ∈ readlines file → clean_row (strip raw).
Proof.
  intros Hraw. unfold readlines in Hraw.
  pose proof (strip_stripped_of raw) as Hs.
  assert (Hsub : forall c, c ∈ strip raw → c ∈ universal_newlines file).
  { intros c Hc. rewrite <- (split_lines_concat (universal_newlines file)).
    apply list_elem_of_In, in_concat. exists raw.
    split; [now apply list_elem_of_In|]. apply list_elem_of_In.
    destruct Hs as (pre & post & -> & _). rewrite !elem_of_app. auto. }
  pose proof (split_lines_shape (universal_newlines file)) as Hshape.
  rewrite Forall_forall in Hshape.
  destruct (Hshape raw Hraw) as (body & Hbody & Hline).
  split; [now apply (stripped_of_no_LF raw _ body)|]. split.
  - intros Hc. apply Hsub in Hc.
    now apply (universal_newlines_no_CR _ _ (le_n _)) in Hc.
  - destruct Hs as (pre & post & _ & _ & _ & Hhead & Hlast). now split.
Qed.

(** X14: every row that [read_input] returns is free of line breaks and
    of whitespace at its two ends; so writing the rows returned one per
    line and reading them again gives the same rows. *)
Theorem read_input_rows_clean (fs : str → option str) (path : str)
    (board : list str) :
  read_input fs path = Ok board →
  Forall clean_row board
  /\ (forall fs' path' eol,
        eol = [LF] \/ eol = [CR; LF] →
        fs' path' = Some (text_of eol board) →
        read_input fs' path' = Ok board).
Proof.
  intros Hread.
  assert (Hclean : Forall clean_row board).
  { unfold read_input in Hread. destruct (fs path) as [file|]; [|done].
    injection Hread as <-. apply Forall_forall. intros row Hrow.
    apply list_elem_of_fmap in Hrow as (raw & -> & Hraw).
    now apply (strip_clean file). }
  split; [done|]. intros fs' path' eol Heol Hfs'.
  unfold read_input. rewrite Hfs'. cbv zeta. now rewrite readlines_text_of.
Qed.

Lemma read_input_rows_clean_witness :
  Forall clean_row [s "a b"; s "c"]
  /\ (forall fs' path' eol,
        eol = [LF] \/ eol = [CR; LF] →
        fs' path' = Some (text_of eol [s "a b"; s "c"]) →
        read_input fs' path' = Ok [s "a b"; s "c"]).
Proof.
  apply (read_input_rows_clean
           (fun _ => Some (s "  a b " ++ [CR] ++ s "c")) (s "docs/check.txt")).
  vm_compute. reflexivity.
Defined.

(** ** Columns with a repeated cell *)

(** X15: on a board whose rows are all as long as the first one, the
    column check returns false exactly when some column between the first
    and the last one holds the same character, other than the filler, in
    two of its cells between the first and the last row. *)
Theorem check_uniqueness_in_columns_repeats (row0 : str) (rest : list str) :
  Forall (fun row => length row = length row0) rest →
  (check_uniqueness_in_columns (row0 :: rest) = Ok false
   ↔ exists j : nat,
       (0 < j < length row0 - 1)%nat
       /\ repeats not_filler (interior (column_cells (row0 :: rest) j)))
  /\ (forall i j : nat,
        (j < length row0)%nat →
        column_cells (row0 :: rest) j !! i
        = (row0 :: rest) !! i ≫= (fun row => row !! j)).
Proof.
  intros Hrest.
  assert (Hall : Forall (fun row => length row = length row0) (row0 :: rest))
    by now constructor.
  split.
  - rewrite check_uniqueness_in_columns_rows by (exists row0; done).
    rewrite check_uniqueness_in_rows_false. unfold interior_cells. split.
    + intros (cells & Hin & Hrep).
      apply list_elem_of_fmap in Hin as (col & -> & Hcol).
      apply list_elem_of_lookup in Hcol as (k & Hk).
      apply interior_lookup in Hk as [Hk Hlt].
      rewrite transpose_length in Hlt.
      rewrite transpose_lookup in Hk by lia. injection Hk as <-.
      exists (S k). split; [lia|done].
    + intros (j & Hj & Hrep). eexists. split; [|exact Hrep].
      apply list_elem_of_fmap. eexists. split; [reflexivity|].
      apply list_elem_of_lookup. exists (j - 1)%nat.
      apply interior_lookup. replace (S (j - 1)) with j by lia.
      rewrite transpose_length. split; [|lia].
      apply transpose_lookup. lia.
  - intros i j Hj. apply column_cells_lookup.
    eapply Forall_impl; [exact Hall|]. intros row Hrow. cbn beta in *. lia.
Qed.

Lemma check_uniqueness_in_columns_repeats_witness :
  check_uniqueness_in_columns [s "****"; s "*12*"; s "*1?*"; s "****"] = Ok false.
Proof.
  apply (proj1 (check_uniqueness_in_columns_repeats (s "****")
                  [s "*12*"; s "*1?*"; s "****"] ltac:(repeat constructor))).
  exists 1%nat. split; [vm_compute; lia|].
  exists 0%nat, 1%nat, "1"%char.
  split; [lia|]. split; [reflexivity|]. split; [reflexivity|]. discriminate.
Defined.

(** ** The two hints of a line together *)

Lemma visible_from_app (a b : list Z) : forall curr_max,
  visible_from curr_max (a ++ b)
  = visible_from curr_max a + visible_from (max_after curr_max a) b.
Proof.
  induction a as [|h a IH]; intros curr_max; [cbn; lia|].
  cbn [app visible_from max_after]. destruct (gt h curr_max); rewrite IH; lia.
Qed.

Lemma gt_max_after (h : Z) (a : list Z) : forall curr_max,
  gt h (max_after curr_max a)
  = gt h curr_max && forallb (fun x => x <? h) a.
Proof.
  induction a as [|x a IH]; intros curr_max; [cbn; now rewrite andb_true_r|].
  cbn [max_after forallb]. rewrite IH. destruct (gt x curr_max) eqn:Hx.
  - cbn [gt]. destruct (Z.ltb_spec x h) as [Hlt|Hge]; cbn [andb].
    + now rewrite (gt_above x h curr_max Hx Hlt).
    + now rewrite andb_false_r.
  - destruct (gt h curr_max) eqn:Hh; [|done]. cbn [andb].
    destruct (Z.ltb_spec x h) as [Hlt|Hge]; [done|]. exfalso.
    destruct curr_max as [|m]; [done|]. cbn in Hx, Hh. lia.
Qed.

Lemma visible_from_anti (heights : list Z) : forall curr_max curr_max',
  (forall x, gt x curr_max' = true → gt x curr_max = true) →
  visible_from curr_max' heights <= visible_from curr_max heights.
Proof.
  induction heights as [|h rest IH]; intros m m' Hle; [done|].
  cbn [visible_from]. destruct (gt h m') eqn:Hm'.
  - rewrite (Hle h Hm'). lia.
  - destruct (gt h m) eqn:Hm.
    + assert (visible_from m' rest <= visible_from (Int h) rest); [|lia].
      apply IH. intros x Hx. destruct m' as [|z]; [done|]. cbn in *. lia.
    + now apply IH.
Qed.

Lemma visible_count_both_sides (heights : list Z) :
  visible_count heights + visible_count (rev heights) <= len heights + 1.
Proof.
  unfold visible_count. induction heights as [|h rest IH]; [done|].
  cbn [rev visible_from gt]. rewrite visible_from_app, len_cons.
  cbn [visible_from]. rewrite gt_max_after. cbn [gt andb].
  pose proof (visible_from_bounds (rev rest) NegInf) as Hright.
  replace (len (rev rest)) with (len rest) in Hright
    by (unfold len; now rewrite length_rev).
  destruct (forallb (fun x => x <? h) (rev rest)) eqn:Hall.
  - assert (Hnone : visible_from (Int h) rest = 0); [|lia].
    apply visible_from_none, Forall_rev_list, Forall_forall.
    intros x Hx. rewrite forallb_forall in Hall.
    specialize (Hall x (proj1 (list_elem_of_In _ _) Hx)). lia.
  - assert (visible_from (Int h) rest <= visible_from NegInf rest); [|lia].
    now apply visible_from_anti.
Qed.

(** X16: the counts of the two sides of a line add up to the number of
    interior cells plus one at most, since only one building can be seen
    from both sides; so a line whose two hints add up to more is invalid. *)
Theorem hints_sum_rejected (l r : ascii) (interior : str) (heights : list Z)
    (hl hr : Z) :
  mapM int interior = Ok heights →
  int l = Ok hl → int r = Ok hr →
  (exists left right,
     while_left heights 0 0 NegInf = Ok left
     /\ while_right heights (len heights - 1) 0 NegInf = Ok right
     /\ left + right <= len heights + 1)
  /\ (len heights + 1 < hl + hr →
      check_visibility (l :: interior ++ [r]) = Ok false).
Proof.
  intros Hh Hl Hr. pose proof (visible_count_both_sides heights) as Hsum.
  split.
  { rewrite while_left_count, while_right_count. eauto. }
  intros Hhints.
  assert (Hb : forall c k, int c = Ok k → border_of c = Some (Hint k)).
  { intros c k Hc. unfold border_of. rewrite Hc. case_decide; [|done].
    subst c. discriminate. }
  rewrite (check_visibility_sides l r interior heights _ _ Hh (Hb _ _ Hl) (Hb _ _ Hr)).
  f_equal. cbn [side_accepts]. apply andb_false_iff.
  destruct (decide (visible_count heights = hl)) as [Heq|Hne].
  - right. apply bool_decide_eq_false. lia.
  - left. now apply bool_decide_eq_false.
Qed.

Lemma hints_sum_rejected_witness :
  check_visibility (s "3213") = Ok false.
Proof.
  apply (proj2 (hints_sum_rejected "3" "3" (s "21") [2; 1] 3 3
                  eq_refl eq_refl eq_refl)).
  vm_compute. reflexivity.
Defined.

(** ** The first line that fails *)

(** X17: the horizontal check stops at the first interior row that is
    rejected or that raises: when the rows before it are valid, its result
    is that of this row, and the rows after it are not looked at. *)
Theorem check_horizontal_visibility_first_failure (board : list str)
    (before after : list str) (row : str) :
  interior board = before ++ row :: after →
  (forall r, r ∈ before → check_visibility r = Ok true) →
  check_visibility row ≠ Ok true →
  check_horizontal_visibility board = check_visibility row.
Proof.
  intros Hrows Hbefore Hrow. rewrite check_horizontal_visibility_lines, Hrows.
  clear Hrows. induction before as [|r before IH]; cbn [app lines_visible].
  - destruct (check_visibility row) as [[]|]; done.
  - rewrite (Hbefore r) by left. rewrite bind_Ok. cbn [negb].
    apply IH. intros r' Hr'. apply Hbefore. now right.
Qed.

Lemma check_horizontal_visibility_first_failure_witness :
  check_horizontal_visibility [s "***"; s "*1*"; s "31*"; s "*x*"; s "***"]
  = check_visibility (s "31*").
Proof.
  apply (check_horizontal_visibility_first_failure
           [s "***"; s "*1*"; s "31*"; s "*x*"; s "***"]
           [s "*1*"] [s "*x*"] (s "31*")).
  - reflexivity.
  - intros r Hr. apply list_elem_of_singleton in Hr. subst r.
    vm_compute. reflexivity.
  - vm_compute. discriminate.
Defined.

(** ** The corners of a board *)

Lemma interior_map {A B} (f : A → B) (l : list A) :
  interior (map f l) = map f (interior l).
Proof.
  unfold interior, slice, clamp, len. rewrite length_map.
  change (1 <? 0) with false. change (-1 <? 0) with true. cbv iota zeta.
  change (map f ?x) with (f <$> x). now rewrite fmap_take, fmap_drop.
Qed.

Lemma elem_of_interior_seq (n j : nat) :
  j ∈ interior (seq 0 n) → (0 < j < n - 1)%nat.
Proof.
  intros H. apply list_elem_of_lookup in H as [k Hk].
  apply interior_lookup in Hk as [Hk Hlt]. rewrite length_seq in Hlt.
  apply lookup_seq in Hk as [-> _]. lia.
Qed.

(** X18: the four corner cells of a board whose rows are equally long are
    read by none of the uniqueness and visibility checks: boards that
    differ in their corners only get the same results. *)
Theorem corners_not_read (a a' b b' c c' d d' : ascii) (top bottom : str)
    (rows : list str) :
  length bottom = length top →
  Forall (fun row => length row = S (S (length top))) rows →
  check_uniqueness_in_rows ((a :: top ++ [b]) :: rows ++ [c :: bottom ++ [d]])
  = check_uniqueness_in_rows ((a' :: top ++ [b']) :: rows ++ [c' :: bottom ++ [d']])
  /\ check_uniqueness_in_columns ((a :: top ++ [b]) :: rows ++ [c :: bottom ++ [d]])
     = check_uniqueness_in_columns
         ((a' :: top ++ [b']) :: rows ++ [c' :: bottom ++ [d']])
  /\ check_horizontal_visibility ((a :: top ++ [b]) :: rows ++ [c :: bottom ++ [d]])
     = check_horizontal_visibility
         ((a' :: top ++ [b']) :: rows ++ [c' :: bottom ++ [d']])
  /\ check_vertical_visibility ((a :: top ++ [b]) :: rows ++ [c :: bottom ++ [d]])
     = check_vertical_visibility
         ((a' :: top ++ [b']) :: rows ++ [c' :: bottom ++ [d']]).
Proof.
  intros Hbottom Hrows.
  set (board := (a :: top ++ [b]) :: rows ++ [c :: bottom ++ [d]]).
  set (board' := (a' :: top ++ [b']) :: rows ++ [c' :: bottom ++ [d']]).
  assert (Hlen : forall x y (m : str), length (x :: m ++ [y]) = S (S (length m))).
  { intros x y m. cbn. rewrite length_app. cbn. lia. }
  assert (Hrect : forall x y z t,
            rectangular ((x :: top ++ [y]) :: rows ++ [z :: bottom ++ [t]])).
  { intros x y z t. exists (x :: top ++ [y]). split; [done|].
    constructor; [done|]. apply Forall_app. split.
    - eapply Forall_impl; [exact Hrows|]. intros row Hrow. cbn beta in *.
      now rewrite Hlen.
    - constructor; [|constructor]. now rewrite !Hlen, Hbottom. }
  assert (Hint : interior board = interior board').
  { unfold board, board', interior. now rewrite !slice_between. }
  assert (Hcell : forall x y (m : str) j,
            (0 < j < S (S (length m)) - 1)%nat →
            (x :: m ++ [y]) !! j = m !! (j - 1)%nat).
  { intros x y m j Hj. destruct j as [|j]; [lia|].
    change ((x :: m ++ [y]) !! S j) with ((m ++ [y]) !! j).
    rewrite lookup_app_l by lia. f_equal. lia. }
  assert (Hcols : interior (transpose board) = interior (transpose board')).
  { unfold board, board', transpose. rewrite !interior_map, !Hlen.
    apply map_ext_in. intros j Hj.
    apply list_elem_of_In, elem_of_interior_seq in Hj.
    unfold column_cells. cbn [omap list_omap].
    rewrite !Hcell by lia. f_equal.
    rewrite !omap_app. f_equal. cbn [omap list_omap].
    rewrite !Hcell by lia. done. }
  split; [|split; [|split]].
  - rewrite !check_uniqueness_in_rows_distinct. unfold interior_cells.
    now rewrite Hint.
  - rewrite !check_uniqueness_in_columns_rows by apply Hrect.
    rewrite !check_uniqueness_in_rows_distinct. unfold interior_cells.
    fold board board'. now rewrite Hcols.
  - rewrite !check_horizontal_visibility_lines. now rewrite Hint.
  - rewrite !check_vertical_visibility_lines by apply Hrect.
    fold board board'. now rewrite Hcols.
Qed.

Lemma corners_not_read_witness :
  check_vertical_visibility [s "*1*"; s "11*"; s "***"]
  = check_vertical_visibility [s "91x"; s "11*"; s "y*0"].
Proof.
  apply (corners_not_read "*" "9" "*" "x" "*" "y" "*" "0" (s "1") (s "*")
           [s "11*"]); [reflexivity|repeat constructor].
Defined.
